(** * spreadsheet-safety-check: the extraction, scoring and sanitization
      pipeline of [spreadsheet_safety_check/checker.py]

    A shallow embedding of [MacroChecker] and of the Python and library
    operations it calls, followed by the properties of the pipeline.

    Conventions.
    - Python [str] is [string]; a character is an [ascii] read as a code
      point below 256.
    - Python [int] is [Z].
    - [None] is [None]; a raised [Exception] is an error result.
      Interrupts and cancellation, which [except Exception] lets through,
      are not part of the model.
    - Objects that the code mutates in place (openpyxl workbooks, odfpy
      documents) live in a store and are named by location; files live in
      a map from paths to the container they decode to, and a path names
      one file.
    - [print] is kept where the sanitizers report their result; the
      progress messages of the other methods are left out.
    - The classifier, the clock, the file system and the container
      libraries are inputs: a run of [query], a [datetime], a [World]. *)

From Stdlib Require Import ZArith Lia Ascii String List.
From Stdlib Require Import Sorting.Sorted Sorting.Permutation.
From Stdlib Require Import Numbers.DecimalString.
From Stdlib Require Numbers.DecimalPos.
From stdpp Require Import gmap strings list fin_maps.

Local Open Scope string_scope.
Local Open Scope Z_scope.

(** ** Python built-ins used by the checker *)

Module Py.

(** [str.isspace] on one character, restricted to code points below 256:
    TAB..CR, FS..US, SPACE, NEL and NBSP. *)
Definition isspace (c : ascii) : bool :=
  let n := N_of_ascii c in
  ((9 <=? n) && (n <=? 13) || (28 <=? n) && (n <=? 32)
   || (n =? 133) || (n =? 160))%N.

(** [s.lstrip()] *)
Fixpoint lstrip (s : string) : string :=
  match s with
  | String c s' => if isspace c then lstrip s' else s
  | EmptyString => EmptyString
  end.

(** [s.rstrip()]: a suffix made of whitespace only is dropped. *)
Fixpoint rstrip (s : string) : string :=
  match s with
  | String c s' =>
      match rstrip s' with
      | EmptyString => if isspace c then EmptyString else String c EmptyString
      | r => String c r
      end
  | EmptyString => EmptyString
  end.

(** [s.strip()] *)
Definition strip (s : string) : string := rstrip (lstrip s).

(** [s.startswith(p)] *)
Definition startswith (s p : string) : bool := String.prefix p s.

(** [sub in s] *)
Fixpoint contains (sub s : string) : bool :=
  match s with
  | String _ s' => String.prefix sub s || contains sub s'
  | EmptyString => String.prefix sub EmptyString
  end.

(** [s.replace(old, new)] for a non-empty [old]: occurrences are replaced
    from the left and do not overlap.  [skip] counts the characters of a
    matched occurrence that are still to be dropped. *)
Fixpoint replace_from (old new : string) (skip : nat) (s : string) : string :=
  match s with
  | EmptyString => EmptyString
  | String c s' =>
      match skip with
      | S k => replace_from old new k s'
      | O =>
          if String.prefix old s
          then new +:+ replace_from old new (String.length old - 1) s'
          else String c (replace_from old new 0 s')
      end
  end.

Definition replace (s old new : string) : string := replace_from old new 0 s.

(** Push a character on the first piece of a split. *)
Definition cons_head (c : ascii) (l : list string) : list string :=
  match l with
  | h :: t => String c h :: t
  | [] => [String c EmptyString]
  end.

(** [s.split(sep)] for a non-empty [sep]. *)
Fixpoint split_from (sep : string) (skip : nat) (s : string) : list string :=
  match s with
  | EmptyString => [EmptyString]
  | String c s' =>
      match skip with
      | S k => split_from sep k s'
      | O =>
          if String.prefix sep s
          then EmptyString :: split_from sep (String.length sep - 1) s'
          else cons_head c (split_from sep 0 s')
      end
  end.

Definition split (s sep : string) : list string := split_from sep 0 s.

(** [l[i]] for a list of strings, when the index is known to be in range
    at the call site. *)
Definition item (l : list string) (i : nat) : string := nth i l EmptyString.

Definition digit_of (c : ascii) : option Z :=
  let n := N_of_ascii c in
  if ((48 <=? n) && (n <=? 57))%N then Some (Z.of_N n - 48) else None.

(** Digits of a decimal literal, groups separated by single underscores. *)
Fixpoint parse_digits (after_digit : bool) (acc : Z) (s : string) : option Z :=
  match s with
  | EmptyString => if after_digit then Some acc else None
  | String c s' =>
      match digit_of c with
      | Some d => parse_digits true (10 * acc + d) s'
      | None =>
          if Ascii.eqb c "_" && after_digit
          then parse_digits false acc s'
          else None
      end
  end.

(** [sys.get_int_max_str_digits()], at its default. *)
Definition int_max_str_digits : nat := 4300.

Fixpoint count_digits (s : string) : nat :=
  match s with
  | String c s' =>
      match digit_of c with
      | Some _ => S (count_digits s')
      | None => count_digits s'
      end
  | EmptyString => O
  end.

(** A literal without sign: too many digits are refused. *)
Definition unsigned_int (s : string) : option Z :=
  if (int_max_str_digits <? count_digits s)%nat then None
  else parse_digits false 0 s.

(** [int(s)] in base 10; [None] stands for [ValueError].  Surrounding
    whitespace is ignored, one sign is allowed. *)
Definition int (s : string) : option Z :=
  match strip s with
  | String "+" r => unsigned_int r
  | String "-" r => Z.opp <$> unsigned_int r
  | t => unsigned_int t
  end.

(** [str(n)] and [f"{n}"] for an [int]. *)
Definition str (n : Z) : string := NilZero.string_of_int (Z.to_int n).

(** [s[:n]] *)
Fixpoint take (n : nat) (s : string) : string :=
  match n, s with
  | S k, String c s' => String c (take k s')
  | _, _ => EmptyString
  end.

(** The newline character. *)
Definition nl : string := String (ascii_of_nat 10) EmptyString.

(** [sorted(l, key=key)]: Python's sort is stable, and a stable sort by
    an integer key has one possible result, computed here by insertion
    from the right. *)
Section Sorted.
Context {A : Type} (key : A -> Z).

Fixpoint insert_by (x : A) (l : list A) : list A :=
  match l with
  | [] => [x]
  | y :: l' => if key x <=? key y then x :: l else y :: insert_by x l'
  end.

Definition sorted (l : list A) : list A := fold_right insert_by [] l.
End Sorted.

End Py.

(** ** The classifier boundary ([claude_agent_sdk.query]) *)

Inductive content_block : Type :=
| TextBlock (text : string)
| OtherBlock.

Inductive message : Type :=
| AssistantMessage (content : list content_block)
| OtherMessage.

(** How the asynchronous iteration over the replies ends: normally, or by
    an [Exception] whose [str] is [detail]. *)
Inductive ending : Type :=
| Completed
| Raised (detail : string).

(** One run of [query]: the messages yielded, then the way it ends. *)
Record query_run : Type := {
  yielded : list message;
  finish : ending
}.

Definition build_prompt (code location : string) : string :=
  "Analyze the following code/macro found in a spreadsheet for security risks.

Location: " +:+ location +:+ "

Code:
```
" +:+ code +:+ "
```

Provide:
1. A security score from 1-10 where:
   - 1-3: Definitely malicious (file access, network calls, process execution, obfuscation)
   - 4-6: Suspicious (external references, dynamic execution, questionable patterns)
   - 7-9: Potentially risky but may be legitimate (common functions that could be misused)
   - 10: Safe (simple calculations, harmless formulas)

2. A brief analysis explaining the score (2-3 sentences)

Format your response EXACTLY as:
SCORE: <number>
ANALYSIS: <your analysis here>
".

Definition default_score : Z := 5.
Definition default_analysis : string := "Unable to analyze".

(** [max(1, min(10, score))] *)
Definition clamp (score : Z) : Z := Z.max 1 (Z.min 10 score).

(** The body of [for line in lines], on the pair [(score, analysis)]. *)
Definition parse_line (st : Z * string) (line : string) : Z * string :=
  if Py.startswith line "SCORE:" then
    match Py.int (Py.strip (Py.replace line "SCORE:" EmptyString)) with
    | Some n => (clamp n, snd st)
    | None => st
    end
  else if Py.startswith line "ANALYSIS:" then
    (fst st, Py.strip (Py.replace line "ANALYSIS:" EmptyString))
  else st.

(** The body of [if isinstance(block, TextBlock)]. *)
Definition parse_text (st : Z * string) (text : string) : Z * string :=
  let st' := fold_left parse_line (Py.split (Py.strip text) Py.nl) st in
  if String.eqb (snd st') default_analysis && Py.contains "ANALYSIS:" text
  then (fst st', Py.strip (Py.item (Py.split text "ANALYSIS:") 1))
  else st'.

Definition parse_block (st : Z * string) (b : content_block) : Z * string :=
  match b with
  | TextBlock text => parse_text st text
  | OtherBlock => st
  end.

Definition parse_message (st : Z * string) (m : message) : Z * string :=
  match m with
  | AssistantMessage content => fold_left parse_block content st
  | OtherMessage => st
  end.

(** [MacroChecker.analyze_code_with_claude]; [query] is the external
    oracle, applied to the prompt. *)
Definition analyze_code_with_claude
    (query : string -> query_run) (code location : string) : Z * string :=
  let run := query (build_prompt code location) in
  let st := fold_left parse_message (yielded run) (default_score, default_analysis) in
  match finish run with
  | Completed => st
  | Raised e => (fst st, "Error during analysis: " +:+ e)
  end.

(** ** Exceptions and results *)

(** The exceptions that the modelled library calls raise. *)
Inductive exn : Type :=
| InvalidColumnIndex (idx : Z)       (* ValueError of get_column_letter *)
| NoSuchWorksheet (name : string)    (* KeyError of workbook[name] *)
| NoSuchAttribute (name : string)    (* KeyError of removeAttribute *)
| InvalidCoordinate (key : string)   (* worksheet[key] on a key that is no cell *)
| CannotLoad (path : string)         (* a loader on a missing or foreign file *)
| CannotWrite (path : string)        (* OSError on writing a file *)
| SameFile (path : string)           (* shutil.SameFileError *)
| ModuleNotFound (name : string)     (* ImportError of an import statement *)
| MissingMethod (name : string)      (* AttributeError: a chart sheet has no iter_rows *)
| NotSubscriptable                   (* TypeError of sheet[key] on a chart sheet *)
| InvalidRow (row : Z)               (* ValueError of Worksheet._get_cell *)
| NotLoaded.                         (* the container attribute is still None *)

Inductive result (A : Type) : Type :=
| Ok (a : A)
| Raise (e : exn).
Arguments Ok {A} a.
Arguments Raise {A} e.

#[global] Instance result_ret : MRet result := @Ok.
#[global] Instance result_bind : MBind result :=
  fun A B f r => match r with Ok a => f a | Raise e => Raise e end.

(** ** openpyxl.utils.get_column_letter *)

(** [chr(remainder + 64)] *)
Definition letter (remainder : Z) : string :=
  String (ascii_of_N (Z.to_N (remainder + 64))) EmptyString.

(** The [while col_idx > 0] loop; the letters come out last first and are
    joined reversed, so each new letter goes in front.  Three rounds
    exhaust every index up to 18278. *)
Fixpoint column_letters (rounds : nat) (col_idx : Z) (letters : string) : string :=
  match rounds with
  | O => letters
  | S k =>
      if 0 <? col_idx then
        let q := col_idx / 26 in
        let remainder := col_idx mod 26 in
        if remainder =? 0
        then column_letters k (q - 1) (letter 26 +:+ letters)
        else column_letters k q (letter remainder +:+ letters)
      else letters
  end.

Definition get_column_letter (col_idx : Z) : result string :=
  if (1 <=? col_idx) && (col_idx <=? 18278)
  then Ok (column_letters 3 col_idx EmptyString)
  else Raise (InvalidColumnIndex col_idx).

(** ** The finding record *)

Record MacroFinding : Type := {
  item_number : Z;
  location : string;
  code : string;
  score : Z;
  analysis : string;
  cell_reference : option (string * string * Z)
}.

(** A row of [detect_formula_cells]:
    [(location, formula, sheet_name, col, row)]. *)
Definition formula_cell : Type := string * string * string * Z * Z.

(** Truth value of an optional string ([if s:]). *)
Definition truthy (s : option string) : bool :=
  match s with
  | Some (String _ _) => true
  | _ => false
  end.

(** ** The composite-document container (odfpy) *)

(** A [table:table-cell] element: the attributes the checker reads or
    writes, and the texts of its [text:p] children. *)
Record TableCell : Type := {
  numbercolumnsrepeated : option string;
  formula : option string;
  stylename : option string;
  paragraphs : list string
}.

Record Table : Type := {
  table_name : option string;
  table_rows : list (list TableCell)
}.

Record OpenDocument : Type := {
  automaticstyles : list string;
  tables : list Table
}.

(** [table.getAttribute("name") or "Sheet"] *)
Definition sheet_name_of (t : Table) : string :=
  match table_name t with
  | Some (String c s) => String c s
  | _ => "Sheet"
  end.

(** The repeat count of a cell that the extractor skips as a run: the
    attribute is present and non-empty, [int] accepts it, and the count
    exceeds 100. *)
Definition skipped_run (cell : TableCell) : option Z :=
  match numbercolumnsrepeated cell with
  | Some repeat =>
      if truthy (Some repeat) then
        match Py.int repeat with
        | Some repeat_count => if 100 <? repeat_count then Some repeat_count else None
        | None => None
        end
      else None
  | None => None
  end.

(** Value of [col_num] when the extractor's loop body for [cell] ends,
    from its value when the body starts. *)
Definition detect_col_after (col_num : Z) (cell : TableCell) : Z :=
  match skipped_run cell with
  | Some repeat_count => (col_num + 1) + (repeat_count - 1)
  | None => col_num + 1
  end.

(** The formula row that the extractor's loop body appends for [cell], if
    any; [col_num] is the counter when the body starts. *)
Definition detect_cell (sheet_name : string) (row_num col_num : Z) (cell : TableCell)
  : result (option formula_cell) :=
  match skipped_run cell with
  | Some _ => Ok None
  | None =>
      match formula cell with
      | Some f =>
          if truthy (Some f) then
            col_letter ← get_column_letter (col_num + 1);
            Ok (Some (sheet_name +:+ "!" +:+ col_letter +:+ Py.str row_num,
                      f, sheet_name, col_num + 1, row_num))
          else Ok None
      | None => Ok None
      end
  end.

(** [for cell in cells] of the extractor. *)
Fixpoint detect_cells (sheet_name : string) (row_num col_num : Z)
    (cells : list TableCell) (formula_cells : list formula_cell)
  : result (list formula_cell) :=
  match cells with
  | [] => Ok formula_cells
  | cell :: rest =>
      found ← detect_cell sheet_name row_num col_num cell;
      detect_cells sheet_name row_num (detect_col_after col_num cell) rest
        (match found with
         | Some fc => formula_cells ++ [fc]
         | None => formula_cells
         end)
  end.

(** [for row in rows] of the extractor. *)
Fixpoint detect_rows (sheet_name : string) (row_num : Z)
    (rows : list (list TableCell)) (formula_cells : list formula_cell)
  : result (list formula_cell) :=
  match rows with
  | [] => Ok formula_cells
  | row :: rest =>
      formula_cells' ← detect_cells sheet_name (row_num + 1) 0 row formula_cells;
      detect_rows sheet_name (row_num + 1) rest formula_cells'
  end.

(** [for table in tables] of the extractor. *)
Fixpoint detect_tables (ts : list Table) (formula_cells : list formula_cell)
  : result (list formula_cell) :=
  match ts with
  | [] => Ok formula_cells
  | table :: rest =>
      formula_cells' ← detect_rows (sheet_name_of table) 0 (table_rows table) formula_cells;
      detect_tables rest formula_cells'
  end.

(** [MacroChecker._detect_ods_formulas] on the loaded document. *)
Definition _detect_ods_formulas (doc : OpenDocument) : result (list formula_cell) :=
  detect_tables (tables doc) [].

(** ** The cell-grid container (openpyxl) *)

Inductive cell_value : Type :=
| NoneValue
| StrValue (s : string)
| OtherValue.                    (* numbers, booleans, dates *)

Record Cell : Type := {
  value : cell_value;
  fill : option string           (* colour of a solid pattern fill *)
}.

Definition empty_cell : Cell := {| value := NoneValue; fill := None |}.

(** A worksheet: its dimensions and its cells, keyed by [(row, column)]
    as in openpyxl; a cell that is not stored reads as empty. *)
Record Worksheet : Type := {
  max_row : nat;
  max_column : nat;
  _cells : gmap (Z * Z) Cell
}.

(** A sheet of a workbook: a worksheet, or a chart sheet, which holds a
    chart and has neither cells nor rows. *)
Inductive Sheet : Type :=
| worksheet (ws : Worksheet)
| chartsheet.

(** A workbook: the sheets of both kinds by title, in [sheetnames]
    order. *)
Definition Workbook : Type := list (string * Sheet).

Definition sheetnames (wb : Workbook) : list string := map fst wb.

(** [wb[sheet_name]] *)
Fixpoint get_sheet (wb : Workbook) (sheet_name : string) : result Sheet :=
  match wb with
  | [] => Raise (NoSuchWorksheet sheet_name)
  | (title, sheet) :: rest =>
      if String.eqb title sheet_name then Ok sheet else get_sheet rest sheet_name
  end.

(** Store back the sheet object that [wb[sheet_name]] returned. *)
Fixpoint set_sheet (wb : Workbook) (sheet_name : string) (sheet' : Sheet) : Workbook :=
  match wb with
  | [] => []
  | (title, sheet) :: rest =>
      if String.eqb title sheet_name then (title, sheet') :: rest
      else (title, sheet) :: set_sheet rest sheet_name sheet'
  end.

(** The rows that a worksheet has: 1 to 1048576.  [Worksheet._get_cell],
    through which [sheet[key]] and the row iterator fetch a cell, raises
    on any other row. *)
Definition valid_row (row : Z) : bool := (0 <? row) && (row <? 1048577).

Definition cell_at (ws : Worksheet) (row col : Z) : Cell :=
  default empty_cell (_cells ws !! (row, col)).

Definition is_letter (c : ascii) : bool :=
  let n := N_of_ascii c in
  ((65 <=? n) && (n <=? 90) || (97 <=? n) && (n <=? 122))%N.

(** Position in the alphabet of a letter of either case, 1 to 26. *)
Definition letter_rank (c : ascii) : Z :=
  let n := Z.of_N (N_of_ascii c) in
  if n <=? 90 then n - 64 else n - 96.

(** Leading letters of a coordinate and what follows them. *)
Fixpoint span_letters (s : string) : string * string :=
  match s with
  | String c s' =>
      if is_letter c
      then let '(l, r) := span_letters s' in (String c l, r)
      else (EmptyString, s)
  | EmptyString => (EmptyString, EmptyString)
  end.

Fixpoint letters_value (acc : Z) (s : string) : Z :=
  match s with
  | String c s' => letters_value (26 * acc + letter_rank c) s'
  | EmptyString => acc
  end.

Fixpoint all_digits (s : string) : bool :=
  match s with
  | String c s' => bool_decide (is_Some (Py.digit_of c)) && all_digits s'
  | EmptyString => true
  end.

(** The [(row, column)] of the cell that a worksheet key selects: one to
    three letters followed by digits that give a row of the worksheet.
    Any other key does not select a single cell. *)
Definition coordinate_from_string (key : string) : result (Z * Z) :=
  let '(col, row) := span_letters key in
  if (1 <=? String.length col)%nat && (String.length col <=? 3)%nat
     && (1 <=? String.length row)%nat && all_digits row
  then match Py.parse_digits false 0 row with
       | Some r => if valid_row r then Ok (r, letters_value 0 col)
                   else Raise (InvalidRow r)
       | None => Raise (InvalidCoordinate key)
       end
  else Raise (InvalidCoordinate key).

(** [cell = sheet[key]; cell.value = v; cell.fill = f]; a chart sheet
    cannot be indexed. *)
Definition write_cell (sheet : Sheet) (key : string) (v : cell_value) (f : string)
  : result Sheet :=
  match sheet with
  | chartsheet => Raise NotSubscriptable
  | worksheet ws =>
      rc ← coordinate_from_string key;
      Ok (worksheet
            {| max_row := max_row ws; max_column := max_column ws;
               _cells := <[rc := {| value := v; fill := Some f |}]> (_cells ws) |})
  end.

(** The extractor's test on one cell of [sheet.iter_rows()], which the
    iterator has fetched at [(row, col)]. *)
Definition excel_cell (sheet_name : string) (sheet : Worksheet) (row col : Z)
  : result (option formula_cell) :=
  if valid_row row then
    match value (cell_at sheet row col) with
    | StrValue v =>
        if Py.startswith v "=" then
          col_letter ← get_column_letter col;
          Ok (Some (sheet_name +:+ "!" +:+ (col_letter +:+ Py.str row),
                    v, sheet_name, col, row))
        else Ok None
    | _ => Ok None
    end
  else Raise (InvalidRow row).

(** [for cell in row] over the columns [cols] of row [row]. *)
Fixpoint excel_row (sheet_name : string) (sheet : Worksheet) (row : Z)
    (cols : list nat) (formula_cells : list formula_cell)
  : result (list formula_cell) :=
  match cols with
  | [] => Ok formula_cells
  | col :: rest =>
      found ← excel_cell sheet_name sheet row (Z.of_nat col);
      excel_row sheet_name sheet row rest
        (match found with
         | Some fc => formula_cells ++ [fc]
         | None => formula_cells
         end)
  end.

(** [for row in sheet.iter_rows()]: rows 1 to [max_row], each with the
    columns 1 to [max_column]. *)
Fixpoint excel_rows (sheet_name : string) (sheet : Worksheet)
    (rows : list nat) (formula_cells : list formula_cell)
  : result (list formula_cell) :=
  match rows with
  | [] => Ok formula_cells
  | row :: rest =>
      formula_cells' ← excel_row sheet_name sheet (Z.of_nat row)
                         (seq 1 (max_column sheet)) formula_cells;
      excel_rows sheet_name sheet rest formula_cells'
  end.

(** [for sheet_name in self.workbook.sheetnames]; a chart sheet has no
    method [iter_rows]. *)
Fixpoint excel_sheets (wb : Workbook) (names : list string)
    (formula_cells : list formula_cell) : result (list formula_cell) :=
  match names with
  | [] => Ok formula_cells
  | sheet_name :: rest =>
      sheet ← get_sheet wb sheet_name;
      match sheet with
      | chartsheet => Raise (MissingMethod "iter_rows")
      | worksheet ws =>
          formula_cells' ← excel_rows sheet_name ws (seq 1 (max_row ws)) formula_cells;
          excel_sheets wb rest formula_cells'
      end
  end.

(** [MacroChecker._detect_excel_formulas] on the loaded workbook. *)
Definition _detect_excel_formulas (wb : Workbook) : result (list formula_cell) :=
  excel_sheets wb (sheetnames wb) [].

(** ** Paths, the clock, files and the object store *)

(** [str.lower] on one character (code points below 256). *)
Definition lower_char (c : ascii) : ascii :=
  let n := N_of_ascii c in
  if ((65 <=? n) && (n <=? 90)
      || (192 <=? n) && (n <=? 222) && negb (n =? 215))%N
  then ascii_of_N (n + 32) else c.

Fixpoint lower (s : string) : string :=
  match s with
  | String c s' => String (lower_char c) (lower s')
  | EmptyString => EmptyString
  end.

(** [Path.name]: the last component of the path. *)
Definition path_name (p : string) : string := List.last (Py.split p "/") EmptyString.

(** [Path.suffix]: with [i = name.rfind(".")], the text [name[i:]] when
    [0 < i < len(name) - 1], and the empty string otherwise. *)
Definition path_suffix (p : string) : string :=
  let name := path_name p in
  match Py.split name "." with
  | (_ :: _ :: _) as pieces =>
      let ext := List.last pieces EmptyString in
      let i := (String.length name - String.length ext - 1)%nat in
      if (0 <? i)%nat && (0 <? String.length ext)%nat
      then "." +:+ ext else EmptyString
  | _ => EmptyString
  end.

(** A reading of the clock ([datetime.now()]), to the second. *)
Record datetime : Type := {
  year : Z; month : Z; day : Z; hour : Z; minute : Z; second : Z
}.

(** A number on at least [width] digits, zero-padded on the left. *)
Definition zero_pad (width : nat) (n : Z) : string :=
  let digits := Py.str n in
  String.concat EmptyString (repeat "0" (width - String.length digits)) +:+ digits.

(** [now.strftime("%Y-%m-%d %H:%M:%S")] *)
Definition strftime (now : datetime) : string :=
  zero_pad 4 (year now) +:+ "-" +:+ zero_pad 2 (month now) +:+ "-"
  +:+ zero_pad 2 (day now) +:+ " " +:+ zero_pad 2 (hour now) +:+ ":"
  +:+ zero_pad 2 (minute now) +:+ ":" +:+ zero_pad 2 (second now).

(** What the bytes of a file decode to. *)
Inductive container : Type :=
| XlsxContainer (wb : Workbook)
| OdsContainer (doc : OpenDocument)
| OtherContainer.

(** A file: its container, and the [(vba_filename, vba_code)] pairs that
    the macro parser extracts from it (none when it finds no macro stream
    or cannot open the file). *)
Record File : Type := {
  content : container;
  vba_modules : list (string * string)
}.

(** A line written by [print]; the text of a caught exception is left to
    the library that raised it. *)
Inductive printed : Type :=
| Line (text : string)
| ErrorLine (prefix : string) (e : exn).

(** The state outside the checker object: the files by path, the loaded
    container objects by location, the output of the sanitizers, the paths
    that can be written, and which optional libraries are installed. *)
Record World : Type := {
  files : gmap string File;
  workbooks : gmap positive Workbook;
  documents : gmap positive OpenDocument;
  stdout : list printed;
  writable : string -> bool;
  HAS_OLETOOLS : bool;
  HAS_ODFPY : bool
}.

Definition with_files (w : World) (fs : gmap string File) : World :=
  {| files := fs; workbooks := workbooks w; documents := documents w;
     stdout := stdout w; writable := writable w;
     HAS_OLETOOLS := HAS_OLETOOLS w; HAS_ODFPY := HAS_ODFPY w |}.

Definition with_workbooks (w : World) (h : gmap positive Workbook) : World :=
  {| files := files w; workbooks := h; documents := documents w;
     stdout := stdout w; writable := writable w;
     HAS_OLETOOLS := HAS_OLETOOLS w; HAS_ODFPY := HAS_ODFPY w |}.

Definition with_documents (w : World) (h : gmap positive OpenDocument) : World :=
  {| files := files w; workbooks := workbooks w; documents := h;
     stdout := stdout w; writable := writable w;
     HAS_OLETOOLS := HAS_OLETOOLS w; HAS_ODFPY := HAS_ODFPY w |}.

Definition print (w : World) (l : printed) : World :=
  {| files := files w; workbooks := workbooks w; documents := documents w;
     stdout := stdout w ++ [l]; writable := writable w;
     HAS_OLETOOLS := HAS_OLETOOLS w; HAS_ODFPY := HAS_ODFPY w |}.

(** [load_workbook(path)]: a new workbook object. *)
Definition load_workbook (w : World) (path : string) : result (positive * World) :=
  match content <$> files w !! path with
  | Some (XlsxContainer wb) =>
      let l := fresh (dom (workbooks w)) in
      Ok (l, with_workbooks w (<[l := wb]> (workbooks w)))
  | _ => Raise (CannotLoad path)
  end.

(** [load_odf(path)]: a new document object. *)
Definition load_odf (w : World) (path : string) : result (positive * World) :=
  match content <$> files w !! path with
  | Some (OdsContainer doc) =>
      let l := fresh (dom (documents w)) in
      Ok (l, with_documents w (<[l := doc]> (documents w)))
  | _ => Raise (CannotLoad path)
  end.

(** Writing a file. *)
Definition write_file (w : World) (path : string) (f : File) : result World :=
  if writable w path then Ok (with_files w (<[path := f]> (files w)))
  else Raise (CannotWrite path).

(** [shutil.copy2(src, dst)] *)
Definition copy2 (w : World) (src dst : string) : result World :=
  match files w !! src with
  | None => Raise (CannotLoad src)
  | Some f => if String.eqb src dst then Raise (SameFile src) else write_file w dst f
  end.

(** ** The checker object *)

Inductive file_kind : Type := excel | ods.

Record MacroChecker : Type := {
  input_file : string;
  remove_threshold : Z;
  findings : list MacroFinding;
  workbook : option positive;
  ods_doc : option positive;
  item_counter : Z;
  file_type : option file_kind
}.

(** [MacroChecker(input_file, remove_threshold)] *)
Definition __init__ (input_file : string) (remove_threshold : Z) : MacroChecker :=
  {| input_file := input_file; remove_threshold := remove_threshold;
     findings := []; workbook := None; ods_doc := None;
     item_counter := 0; file_type := None |}.

Definition with_file_type (c : MacroChecker) (k : file_kind) : MacroChecker :=
  {| input_file := input_file c; remove_threshold := remove_threshold c;
     findings := findings c; workbook := workbook c; ods_doc := ods_doc c;
     item_counter := item_counter c; file_type := Some k |}.

Definition with_workbook (c : MacroChecker) (l : positive) : MacroChecker :=
  {| input_file := input_file c; remove_threshold := remove_threshold c;
     findings := findings c; workbook := Some l; ods_doc := ods_doc c;
     item_counter := item_counter c; file_type := file_type c |}.

Definition with_ods_doc (c : MacroChecker) (l : positive) : MacroChecker :=
  {| input_file := input_file c; remove_threshold := remove_threshold c;
     findings := findings c; workbook := workbook c; ods_doc := Some l;
     item_counter := item_counter c; file_type := file_type c |}.

(** [self.item_counter += 1] followed, after the classification, by
    [self.findings.append(finding)]. *)
Definition with_finding (c : MacroChecker) (f : MacroFinding) : MacroChecker :=
  {| input_file := input_file c; remove_threshold := remove_threshold c;
     findings := findings c ++ [f]; workbook := workbook c; ods_doc := ods_doc c;
     item_counter := item_number f; file_type := file_type c |}.

(** [MacroChecker.load_spreadsheet] *)
Definition load_spreadsheet (c : MacroChecker) (w : World) : bool * MacroChecker * World :=
  let suffix := lower (path_suffix (input_file c)) in
  if String.eqb suffix ".xlsx" || String.eqb suffix ".xlsm" then
    let c := with_file_type c excel in
    match load_workbook w (input_file c) with
    | Ok (l, w') => (true, with_workbook c l, w')
    | Raise _ => (false, c, w)
    end
  else if String.eqb suffix ".ods" then
    if negb (HAS_ODFPY w) then (false, c, w)
    else
      let c := with_file_type c ods in
      match load_odf w (input_file c) with
      | Ok (l, w') => (true, with_ods_doc c l, w')
      | Raise _ => (false, c, w)
      end
  else (false, c, w).

(** [MacroChecker.detect_vba_macros]: the [(location, vba_code)] pairs of
    the modules with non-empty code. *)
Definition detect_vba_macros (c : MacroChecker) (w : World) : list (string * string) :=
  if negb (HAS_OLETOOLS w) then []
  else
    match files w !! input_file c with
    | None => []
    | Some f =>
        omap (fun m : string * string =>
                let '(vba_filename, vba_code) := m in
                if truthy (Some vba_code)
                then Some ("VBA Module: " +:+ vba_filename, vba_code)
                else None)
             (vba_modules f)
    end.

(** [MacroChecker.detect_formula_cells] *)
Definition detect_formula_cells (c : MacroChecker) (w : World) : result (list formula_cell) :=
  match file_type c with
  | Some excel =>
      match workbook c ≫= (fun l => workbooks w !! l) with
      | Some wb => _detect_excel_formulas wb
      | None => Raise NotLoaded
      end
  | Some ods =>
      match ods_doc c ≫= (fun l => documents w !! l) with
      | Some doc => _detect_ods_formulas doc
      | None => Raise NotLoaded
      end
  | None => Ok []
  end.

(** The first loop of [scan_file]; [oracle n] is the run of [query] that
    answers the request made for item [n]. *)
Fixpoint scan_macros (oracle : Z -> string -> query_run)
    (vba_macros : list (string * string)) (c : MacroChecker) : MacroChecker :=
  match vba_macros with
  | [] => c
  | (location, code) :: rest =>
      let n := item_counter c + 1 in
      let '(score, analysis) := analyze_code_with_claude (oracle n) code location in
      scan_macros oracle rest
        (with_finding c {| item_number := n; location := location; code := code;
                           score := score; analysis := analysis;
                           cell_reference := None |})
  end.

(** The second loop of [scan_file]. *)
Fixpoint scan_formulas (oracle : Z -> string -> query_run)
    (formula_cells : list formula_cell) (c : MacroChecker) : result MacroChecker :=
  match formula_cells with
  | [] => Ok c
  | (location, formula, sheet_name, col, row) :: rest =>
      let n := item_counter c + 1 in
      let '(score, analysis) := analyze_code_with_claude (oracle n) formula location in
      col_letter ← get_column_letter col;
      scan_formulas oracle rest
        (with_finding c {| item_number := n; location := location; code := formula;
                           score := score; analysis := analysis;
                           cell_reference := Some (sheet_name, col_letter, row) |})
  end.

(** [MacroChecker.scan_file] *)
Definition scan_file (oracle : Z -> string -> query_run) (c : MacroChecker) (w : World)
  : result (bool * MacroChecker * World) :=
  let '(loaded, c, w) := load_spreadsheet c w in
  if negb loaded then Ok (false, c, w)
  else
    let c := scan_macros oracle (detect_vba_macros c w) c in
    formula_cells ← detect_formula_cells c w;
    c ← scan_formulas oracle formula_cells c;
    Ok (true, c, w).

(** ** The report *)

(** [len([f for f in self.findings if p(f)])] *)
Definition count_if (p : MacroFinding -> bool) (l : list MacroFinding) : Z :=
  Z.of_nat (length (List.filter p l)).

(** The text that one round of [for finding in sorted(...)] appends. *)
Definition report_entry (finding : MacroFinding) : string :=
  "### Item #" +:+ Py.str (item_number finding) +:+ ": " +:+ location finding
  +:+ Py.nl +:+ Py.nl
  +:+ "**Score:** " +:+ Py.str (score finding) +:+ "/10" +:+ Py.nl +:+ Py.nl
  +:+ "**Analysis:** " +:+ analysis finding +:+ Py.nl +:+ Py.nl
  +:+ "**Code:**" +:+ Py.nl +:+ "```" +:+ Py.nl +:+ Py.take 500 (code finding)
  +:+ (if (500 <? String.length (code finding))%nat
       then Py.nl +:+ "... (truncated)" else EmptyString)
  +:+ Py.nl +:+ "```" +:+ Py.nl +:+ Py.nl
  +:+ "---" +:+ Py.nl +:+ Py.nl.

(** The report up to the timestamp, and from the timestamp to the
    detailed findings. *)
Definition report_head (c : MacroChecker) : string :=
  "# Macro Security Analysis Report

**File:** " +:+ path_name (input_file c) +:+ "
**Scan Date:** ".

Definition report_summary (c : MacroChecker) : string :=
  "
**Total Items Found:** " +:+ Py.str (Z.of_nat (length (findings c))) +:+ "
**Removal Threshold:** " +:+ Py.str (remove_threshold c) +:+ "

## Summary

"
  +:+ "- **Malicious (1-3):** "
  +:+ Py.str (count_if (fun f => score f <=? 3) (findings c)) +:+ Py.nl
  +:+ "- **Suspicious (4-6):** "
  +:+ Py.str (count_if (fun f => (4 <=? score f) && (score f <=? 6)) (findings c)) +:+ Py.nl
  +:+ "- **Potentially Risky (7-9):** "
  +:+ Py.str (count_if (fun f => (7 <=? score f) && (score f <=? 9)) (findings c)) +:+ Py.nl
  +:+ "- **Safe (10):** "
  +:+ Py.str (count_if (fun f => score f =? 10) (findings c)) +:+ Py.nl
  +:+ "- **Items to be removed (score < " +:+ Py.str (remove_threshold c) +:+ "):** "
  +:+ Py.str (count_if (fun f => score f <? remove_threshold c) (findings c))
  +:+ Py.nl +:+ Py.nl
  +:+ "## Detailed Findings" +:+ Py.nl +:+ Py.nl.

(** The findings in the order of the detailed entries:
    [sorted(self.findings, key=lambda x: x.score)]. *)
Definition report_order (c : MacroChecker) : list MacroFinding :=
  Py.sorted score (findings c).

(** [MacroChecker.generate_markdown_report]; [now] is what
    [datetime.now()] returns during the call. *)
Definition generate_markdown_report (c : MacroChecker) (now : datetime) : string :=
  let timestamp := strftime now in
  report_head c +:+ timestamp +:+ report_summary c
  +:+ String.concat EmptyString (map report_entry (report_order c)).

(** ** The sanitizers *)

Definition placeholder (item_num : Z) : string :=
  "CODE REMOVED: Item #" +:+ Py.str item_num.

(** [finding.score < self.remove_threshold and finding.cell_reference] *)
Definition to_redact (threshold : Z) (finding : MacroFinding) : bool :=
  (score finding <? threshold) && bool_decide (is_Some (cell_reference finding)).

(** [for finding in self.findings] of the cell-grid sanitizer, on the
    workbook [output_wb] and the counter [items_removed]. *)
Fixpoint sanitize_excel_findings (threshold : Z) (fs : list MacroFinding)
    (output_wb : Workbook) (items_removed : Z) : result (Workbook * Z) :=
  match fs with
  | [] => Ok (output_wb, items_removed)
  | finding :: rest =>
      match cell_reference finding with
      | Some (sheet_name, col_letter, row) =>
          if score finding <? threshold then
            sheet ← get_sheet output_wb sheet_name;
            sheet' ← write_cell sheet (col_letter +:+ Py.str row)
                       (StrValue (placeholder (item_number finding))) "FFFF00";
            sanitize_excel_findings threshold rest
              (set_sheet output_wb sheet_name sheet') (items_removed + 1)
          else sanitize_excel_findings threshold rest output_wb items_removed
      | None => sanitize_excel_findings threshold rest output_wb items_removed
      end
  end.

(** [MacroChecker._create_sanitized_excel] *)
Definition _create_sanitized_excel (c : MacroChecker) (output_file : string) (w : World)
  : bool * World :=
  let failed w e := (false, print w (ErrorLine "Error creating sanitized copy: " e)) in
  match load_workbook w (input_file c) with
  | Raise e => failed w e
  | Ok (l, w1) =>
      match sanitize_excel_findings (remove_threshold c) (findings c)
              (default [] (workbooks w1 !! l)) 0 with
      | Raise e => failed w1 e
      | Ok (output_wb, items_removed) =>
          let w2 := with_workbooks w1 (<[l := output_wb]> (workbooks w1)) in
          match write_file w2 output_file
                  {| content := XlsxContainer output_wb; vba_modules := [] |} with
          | Raise e => failed w2 e
          | Ok w3 =>
              (true,
               print (print w3 (Line (Py.nl +:+ "Sanitized copy created: " +:+ output_file)))
                     (Line ("Items removed/highlighted: " +:+ Py.str items_removed)))
          end
      end
  end.

(** The dictionary [cells_to_sanitize]:
    [(sheet_name, row)] to the [(col_letter, item_number)] pairs to redact. *)
Definition add_target (threshold : Z) (cells_to_sanitize : gmap (string * Z) (list (string * Z)))
    (finding : MacroFinding) : gmap (string * Z) (list (string * Z)) :=
  match cell_reference finding with
  | Some (sheet_name, col_letter, row) =>
      if score finding <? threshold then
        let key := (sheet_name, row) in
        <[key := (default [] (cells_to_sanitize !! key) ++ [(col_letter, item_number finding)])%list]>
          cells_to_sanitize
      else cells_to_sanitize
  | None => cells_to_sanitize
  end.

Definition build_cells_to_sanitize (threshold : Z) (fs : list MacroFinding)
  : gmap (string * Z) (list (string * Z)) :=
  fold_left (add_target threshold) fs ∅.

(** The redaction of one cell: formula attribute removed, text replaced,
    style set. *)
Definition redact_cell (cell : TableCell) (item_num : Z) : result TableCell :=
  match formula cell with
  | None => Raise (NoSuchAttribute "formula")
  | Some _ =>
      Ok {| numbercolumnsrepeated := numbercolumnsrepeated cell;
            formula := None;
            stylename := Some "YellowBackground";
            paragraphs := [placeholder item_num] |}
  end.

(** [for target_col, item_num in cells_to_sanitize[key]] *)
Fixpoint sanitize_targets (col_letter : string) (targets : list (string * Z))
    (cell : TableCell) (items_removed : Z) : result (TableCell * Z) :=
  match targets with
  | [] => Ok (cell, items_removed)
  | (target_col, item_num) :: rest =>
      if String.eqb col_letter target_col then
        cell' ← redact_cell cell item_num;
        sanitize_targets col_letter rest cell' (items_removed + 1)
      else sanitize_targets col_letter rest cell items_removed
  end.

(** Value of [col_num] when the sanitizer's loop body for [cell] ends,
    from its value when the body starts. *)
Definition sanitize_col_after (col_num : Z) (cell : TableCell) : Z := col_num + 1.

(** [for cell in cells] of the composite-document sanitizer. *)
Fixpoint sanitize_cells (cells_to_sanitize : gmap (string * Z) (list (string * Z)))
    (sheet_name : string) (row_num col_num : Z) (cells : list TableCell)
    (items_removed : Z) : result (list TableCell * Z) :=
  match cells with
  | [] => Ok ([], items_removed)
  | cell :: rest =>
      '(cell', n) ←
        match cells_to_sanitize !! (sheet_name, row_num) with
        | Some targets =>
            col_letter ← get_column_letter (col_num + 1);
            sanitize_targets col_letter targets cell items_removed
        | None => Ok (cell, items_removed)
        end;
      '(rest', n') ← sanitize_cells cells_to_sanitize sheet_name row_num
                       (sanitize_col_after col_num cell) rest n;
      Ok (cell' :: rest', n')
  end.

(** [for row in rows] of the composite-document sanitizer. *)
Fixpoint sanitize_rows (cells_to_sanitize : gmap (string * Z) (list (string * Z)))
    (sheet_name : string) (row_num : Z) (rows : list (list TableCell))
    (items_removed : Z) : result (list (list TableCell) * Z) :=
  match rows with
  | [] => Ok ([], items_removed)
  | row :: rest =>
      '(row', n) ← sanitize_cells cells_to_sanitize sheet_name (row_num + 1) 0 row
                     items_removed;
      '(rest', n') ← sanitize_rows cells_to_sanitize sheet_name (row_num + 1) rest n;
      Ok (row' :: rest', n')
  end.

(** [for table in tables] of the composite-document sanitizer. *)
Fixpoint sanitize_tables (cells_to_sanitize : gmap (string * Z) (list (string * Z)))
    (ts : list Table) (items_removed : Z) : result (list Table * Z) :=
  match ts with
  | [] => Ok ([], items_removed)
  | table :: rest =>
      '(rows', n) ← sanitize_rows cells_to_sanitize (sheet_name_of table) 0
                      (table_rows table) items_removed;
      '(rest', n') ← sanitize_tables cells_to_sanitize rest n;
      Ok ({| table_name := table_name table; table_rows := rows' |} :: rest', n')
  end.

(** [MacroChecker._create_sanitized_ods].  The body starts with
    [from odf.style import Style, TableCellProperties], inside the [try]:
    without the library the import raises before anything is copied. *)
Definition _create_sanitized_ods (c : MacroChecker) (output_file : string) (w : World)
  : bool * World :=
  let failed w e := (false, print w (ErrorLine "Error creating sanitized ODS copy: " e)) in
  if negb (HAS_ODFPY w) then failed w (ModuleNotFound "odf")
  else
  match copy2 w (input_file c) output_file with
  | Raise e => failed w e
  | Ok w1 =>
      match load_odf w1 output_file with
      | Raise e => failed w1 e
      | Ok (l, w2) =>
          let output_doc := default {| automaticstyles := []; tables := [] |}
                              (documents w2 !! l) in
          let styles := (automaticstyles output_doc ++ ["YellowBackground"])%list in
          match sanitize_tables
                  (build_cells_to_sanitize (remove_threshold c) (findings c))
                  (tables output_doc) 0 with
          | Raise e => failed w2 e
          | Ok (tables', items_removed) =>
              let output_doc' := {| automaticstyles := styles; tables := tables' |} in
              let w3 := with_documents w2 (<[l := output_doc']> (documents w2)) in
              match write_file w3 output_file
                      {| content := OdsContainer output_doc';
                         vba_modules := default [] (vba_modules <$> files w3 !! output_file) |} with
              | Raise e => failed w3 e
              | Ok w4 =>
                  (true,
                   print (print w4 (Line (Py.nl +:+ "Sanitized copy created: " +:+ output_file)))
                         (Line ("Items removed/highlighted: " +:+ Py.str items_removed)))
              end
          end
      end
  end.

(** [MacroChecker.create_sanitized_copy] *)
Definition create_sanitized_copy (c : MacroChecker) (output_file : string) (w : World)
  : bool * World :=
  match file_type c with
  | Some excel => _create_sanitized_excel c output_file w
  | Some ods => _create_sanitized_ods c output_file w
  | None => (false, w)
  end.

(** ** Vocabulary of the properties *)

(** The lines of a reply text that the parser walks. *)
Definition reply_lines (text : string) : list string :=
  Py.split (Py.strip text) Py.nl.

Definition is_score_line (line : string) : bool := Py.startswith line "SCORE:".

(** What [int] makes of a score line. *)
Definition score_of_line (line : string) : option Z :=
  Py.int (Py.strip (Py.replace line "SCORE:" EmptyString)).

Definition block_has_score_line (b : content_block) : bool :=
  match b with
  | TextBlock text => existsb is_score_line (reply_lines text)
  | OtherBlock => false
  end.

Definition has_score_line (msgs : list message) : bool :=
  existsb (fun m => match m with
                    | AssistantMessage content => existsb block_has_score_line content
                    | OtherMessage => false
                    end) msgs.

(** A run of [query] that yields one text reply and completes. *)
Definition one_reply (text : string) : query_run :=
  {| yielded := [AssistantMessage [TextBlock text]]; finish := Completed |}.

(** The reading of the specification for the score of a reply: the first
    line with the marker decides, clamped, and the midpoint stands in when
    that line does not parse or there is none. *)
Definition spec_score_from_first_line (text : string) : Z :=
  match List.filter is_score_line (reply_lines text) with
  | line :: _ => match score_of_line line with
                 | Some n => clamp n
                 | None => default_score
                 end
  | [] => default_score
  end.

(** Order by an integer key, then by a relation [before]. *)
Definition key_then_before {A : Type} (key : A -> Z) (before : A -> A -> Prop)
    (x y : A) : Prop :=
  key x < key y \/ (key x = key y /\ before x y).

(** Discovery order of findings. *)
Definition discovered_before (f g : MacroFinding) : Prop :=
  item_number f < item_number g.

(** Order of the detailed entries: by score, then by item number. *)
Definition entry_before (f g : MacroFinding) : Prop :=
  score f < score g \/ (score f = score g /\ item_number f < item_number g).

(** [True == 1] and [False == 0]: a Python [bool] compared with an int. *)
Definition int_of_bool (b : bool) : Z := if b then 1 else 0.

(** The column of the sheet at which a cell starts when every
    [numbercolumnsrepeated] count is honoured, after the cells [before]. *)
Definition repeat_count (cell : TableCell) : Z :=
  match numbercolumnsrepeated cell with
  | Some repeat => default 1 (Py.int repeat)
  | None => 1
  end.


(** A cell with the given repeat and formula attributes and no text. *)
Definition table_cell (repeat formula : option string) : TableCell :=
  {| numbercolumnsrepeated := repeat; formula := formula;
     stylename := None; paragraphs := [] |}.




(** Inputs of the examples. *)
Definition two_score_lines : string := "SCORE: 2
SCORE: 9".


Definition failing_at_once : query_run :=
  {| yielded := []; finish := Raised "connection lost" |}.

Definition formula_value (f : string) : Cell := {| value := StrValue f; fill := None |}.

Definition grid_sheet : Worksheet :=
  {| max_row := 3; max_column := 2;
     _cells := <[(1, 1) := {| value := StrValue "Hello"; fill := None |}]>
               (<[(2, 1) := formula_value "=SUM(1,2)"]>
               (<[(3, 1) := formula_value "=HYPERLINK('http://example.com', 'Click me')"]>
               (<[(3, 2) := formula_value "=A2"]> ∅))) |}.

(** A row that opens with a run of 500 empty columns, then a formula. *)
Definition padded_document : OpenDocument :=
  {| automaticstyles := [];
     tables := [ {| table_name := Some "Sheet1";
                    table_rows := [[table_cell (Some "500") None;
                                    table_cell None (Some "of:=1+1")]] |} ] |}.

(** A run of 500 columns that all hold the same formula. *)
Definition repeated_formula_document : OpenDocument :=
  {| automaticstyles := [];
     tables := [ {| table_name := Some "Sheet1";
                    table_rows := [[table_cell (Some "500")
                                      (Some "of:=WEBSERVICE('http://example.com')")]] |} ] |}.

Definition example_world : World :=
  {| files := {[ "book.xlsx" := {| content := XlsxContainer [("TestSheet", worksheet grid_sheet)];
                                   vba_modules := [("Module1", "Sub Auto_Open()")] |};
                 "padded.ods" := {| content := OdsContainer padded_document;
                                    vba_modules := [] |} ]};
     workbooks := ∅; documents := ∅; stdout := [];
     writable := fun _ => true; HAS_OLETOOLS := true; HAS_ODFPY := true |}.

(** An oracle that scores item 1 at 8, items 2 and 3 at 3, and fails on
    every later request. *)
Definition example_oracle (n : Z) (prompt : string) : query_run :=
  if n =? 1 then one_reply "SCORE: 8
ANALYSIS: opens on load"
  else if n <=? 3 then one_reply "SCORE: 3
ANALYSIS: reaches out"
  else failing_at_once.

(** An oracle that scores everything at 1. *)
Definition severe_oracle (n : Z) (prompt : string) : query_run :=
  one_reply "SCORE: 1
ANALYSIS: malicious".

Definition morning : datetime :=
  {| year := 2024; month := 3; day := 9; hour := 7; minute := 5; second := 0 |}.

Definition a_second_later : datetime :=
  {| year := 2024; month := 3; day := 9; hour := 7; minute := 5; second := 1 |}.

(** The checker and the world that a scan leaves. *)
Definition scanned (r : result (bool * MacroChecker * World)) : MacroChecker * World :=
  match r with
  | Ok (_, c, w) => (c, w)
  | Raise _ => (__init__ EmptyString 0, example_world)
  end.

Definition scanned_book : MacroChecker * World :=
  scanned (scan_file example_oracle (__init__ "book.xlsx" 5) example_world).

Definition scanned_padded : MacroChecker * World :=
  scanned (scan_file severe_oracle (__init__ "padded.ods" 5) example_world).

(** What a sanitizer may change between two worlds: the file at [out],
    and objects that did not exist before. *)
Definition frame (out : string) (w w' : World) : Prop :=
  (forall p, p <> out -> files w' !! p = files w !! p)
  /\ (forall l wb, workbooks w !! l = Some wb -> workbooks w' !! l = Some wb)
  /\ (forall l doc, documents w !! l = Some doc -> documents w' !! l = Some doc).




(** What [scan_file] maintains on the checker: the findings are in
    discovery order, none is numbered past the counter, and every score is
    within the scale. *)
Definition scan_invariant (c : MacroChecker) : Prop :=
  StronglySorted discovered_before (findings c)
  /\ Forall (fun f => item_number f <= item_counter c) (findings c)
  /\ Forall (fun f => 1 <= score f <= 10) (findings c).

(** The parser state holds a score within the scale. *)
Definition score_in_range (st : Z * string) : Prop := 1 <= fst st <= 10.

(** ** Vocabulary of the further properties *)

(** The findings are numbered consecutively after [n]. *)
Fixpoint numbered_from (n : Z) (fs : list MacroFinding) : Prop :=
  match fs with
  | [] => True
  | f :: rest => item_number f = n + 1 /\ numbered_from (n + 1) rest
  end.

(** The score and rationale of a finding are what the classifier answered
    to the request made for it. *)
Definition classified (oracle : Z -> string -> query_run) (f : MacroFinding) : Prop :=
  (score f, analysis f)
  = analyze_code_with_claude (oracle (item_number f)) (code f) (location f).

(** A finding made from a macro module / from a formula cell. *)
Definition finding_of_macro (f : MacroFinding) (m : string * string) : Prop :=
  location f = fst m /\ code f = snd m /\ cell_reference f = None.

Definition finding_of_formula (f : MacroFinding) (fc : formula_cell) : Prop :=
  let '(loc, formula, sheet_name, col, row) := fc in
  location f = loc /\ code f = formula
  /\ exists col_letter,
      get_column_letter col = Ok col_letter
      /\ cell_reference f = Some (sheet_name, col_letter, row).

(** The fields of the checker that the scan loops leave alone. *)
Definition same_setup (c c' : MacroChecker) : Prop :=
  input_file c' = input_file c /\ remove_threshold c' = remove_threshold c
  /\ workbook c' = workbook c /\ ods_doc c' = ods_doc c
  /\ file_type c' = file_type c.

(** The suffix test of [load_spreadsheet]. *)
Definition suffix_of (c : MacroChecker) : string := lower (path_suffix (input_file c)).


(** A formula cell of a workbook, with the row that the extractor reports
    for it: a cell within the dimensions of a sheet whose value is a
    string that begins with [=]. *)
Definition excel_formula_at (wb : Workbook) (fc : formula_cell) : Prop :=
  let '(loc, v, sheet_name, col, row) := fc in
  exists ws col_letter,
    In sheet_name (sheetnames wb) /\ get_sheet wb sheet_name = Ok (worksheet ws)
    /\ 1 <= row <= Z.of_nat (max_row ws) /\ 1 <= col <= Z.of_nat (max_column ws)
    /\ value (cell_at ws row col) = StrValue v /\ Py.startswith v "=" = true
    /\ get_column_letter col = Ok col_letter
    /\ loc = sheet_name +:+ "!" +:+ (col_letter +:+ Py.str row).

(** What the extractor's test yields at one position, if anything. *)
Definition excel_found (sheet_name : string) (sheet : Worksheet) (row : Z) (col : nat)
  : option formula_cell :=
  match excel_cell sheet_name sheet row (Z.of_nat col) with
  | Ok found => found
  | Raise _ => None
  end.

(** What a returning extraction has walked: every listed title names a
    worksheet, and every row of a sheet with a column is a row of a
    worksheet. *)
Definition walked (wb : Workbook) (sheet_name : string) : Prop :=
  exists ws,
    get_sheet wb sheet_name = Ok (worksheet ws)
    /\ forall row col, In row (seq 1 (max_row ws)) -> In col (seq 1 (max_column ws)) ->
                       valid_row (Z.of_nat row) = true.

(** The sheet, column and row of an extracted formula. *)
Definition position (fc : formula_cell) : string * Z * Z :=
  let '(_, _, sheet_name, col, row) := fc in (sheet_name, col, row).


(** A formula cell of a document, with the row that the composite-document
    extractor reports for it: a cell that is not skipped as a run and has
    a non-empty formula attribute, at the row counted in row elements and
    at the column that the extractor's counter gives. *)
Definition ods_formula_at (doc : OpenDocument) (fc : formula_cell) : Prop :=
  let '(loc, f, sheet_name, col, row) := fc in
  exists t rows_before cells rows_after before cell after col_letter,
    In t (tables doc) /\ sheet_name = sheet_name_of t
    /\ table_rows t = (rows_before ++ cells :: rows_after)%list
    /\ row = Z.of_nat (length rows_before) + 1
    /\ cells = (before ++ cell :: after)%list
    /\ skipped_run cell = None
    /\ formula cell = Some f /\ truthy (Some f) = true
    /\ col = fold_left detect_col_after before 0 + 1
    /\ get_column_letter col = Ok col_letter
    /\ loc = sheet_name +:+ "!" +:+ col_letter +:+ Py.str row.




(** A row whose formula lies beyond the last column that has a letter. *)
Definition far_document : OpenDocument :=
  {| automaticstyles := [];
     tables := [ {| table_name := Some "Sheet1";
                    table_rows := [[table_cell None (Some "of:=1+1")];
                                   [table_cell (Some "20000") None;
                                    table_cell None (Some "of:=2+2")]] |} ] |}.

Definition far_world : World :=
  {| files := {[ "far.ods" := {| content := OdsContainer far_document;
                                 vba_modules := [] |} ]};
     workbooks := ∅; documents := ∅; stdout := [];
     writable := fun _ => true; HAS_OLETOOLS := true; HAS_ODFPY := true |}.

(** A call raised. *)
Definition raises {A : Type} (r : result A) : Prop :=
  match r with
  | Ok _ => False
  | Raise _ => True
  end.

Fixpoint all_letters (s : string) : bool :=
  match s with
  | String c s' => is_letter c && all_letters s'
  | EmptyString => true
  end.

(** What the sanitizer needs of the letters of a column: one to three
    letters that read back as the index. *)
Definition column_letter_checks (col_idx : Z) : bool :=
  let letters := column_letters 3 col_idx EmptyString in
  all_letters letters
  && (1 <=? String.length letters)%nat && (String.length letters <=? 3)%nat
  && (letters_value 0 letters =? col_idx).



(** The findings that the report counts as to be removed, and those among
    them that have no cell. *)
Definition below_threshold (threshold : Z) (f : MacroFinding) : bool :=
  score f <? threshold.

Definition below_without_cell (threshold : Z) (f : MacroFinding) : bool :=
  (score f <? threshold) && negb (bool_decide (is_Some (cell_reference f))).



(** What the composite-document sanitizer makes of a cell that it
    redacts. *)
Definition redacted_cell (cell : TableCell) (item_num : Z) : TableCell :=
  {| numbercolumnsrepeated := numbercolumnsrepeated cell;
     formula := None;
     stylename := Some "YellowBackground";
     paragraphs := [placeholder item_num] |}.

Definition cell_kept_or_redacted (cell cell' : TableCell) : Prop :=
  cell' = cell
  \/ exists item_num, is_Some (formula cell) /\ cell' = redacted_cell cell item_num.

Definition table_kept_or_redacted (t t' : Table) : Prop :=
  table_name t' = table_name t
  /\ Forall2 (Forall2 cell_kept_or_redacted) (table_rows t) (table_rows t').

(** Number of cells that carry a formula attribute. *)
Definition formula_count_cells (cells : list TableCell) : Z :=
  Z.of_nat (length (List.filter (fun cell => bool_decide (is_Some (formula cell))) cells)).

Definition formula_count_rows (rows : list (list TableCell)) : Z :=
  fold_right Z.add 0 (map formula_count_cells rows).

Definition formula_count (ts : list Table) : Z :=
  fold_right Z.add 0 (map (fun t => formula_count_rows (table_rows t)) ts).

(** The entry that a finding contributes to [cells_to_sanitize] at the
    key [(sheet_name, row)], if any. *)
Definition target_at (threshold : Z) (sheet_name : string) (row : Z) (f : MacroFinding)
  : option (string * Z) :=
  match cell_reference f with
  | Some (s, col_letter, r) =>
      if (score f <? threshold) && bool_decide ((s, r) = (sheet_name, row))
      then Some (col_letter, item_number f)
      else None
  | None => None
  end.

(** A document with one formula, and the world and checker of a scan
    that scored it at 1. *)
Definition plain_document : OpenDocument :=
  {| automaticstyles := ["ce1"];
     tables := [ {| table_name := None;
                    table_rows := [[table_cell None None;
                                    table_cell (Some "2") (Some "of:=1+1")]] |} ] |}.

Definition plain_world : World :=
  {| files := {[ "plain.ods" := {| content := OdsContainer plain_document;
                                   vba_modules := [] |} ]};
     workbooks := ∅; documents := ∅; stdout := [];
     writable := fun _ => true; HAS_OLETOOLS := true; HAS_ODFPY := true |}.

Definition scanned_plain : MacroChecker * World :=
  scanned (scan_file severe_oracle (__init__ "plain.ods" 5) plain_world).

(** ** Properties of the classifier adapter *)

Lemma clamp_range (n : Z) : 1 <= clamp n <= 10.
Proof. unfold clamp. lia. Qed.

Lemma fold_left_invariant {A B : Type} (P : A -> Prop) (f : A -> B -> A) (l : list B) :
  (forall a x, P a -> P (f a x)) -> forall a, P a -> P (fold_left f l a).
Proof.
  intros Hstep. induction l as [|x l IH]; intros a Ha; simpl; [exact Ha|].
  apply IH, Hstep, Ha.
Qed.

Lemma parse_line_range (st : Z * string) (line : string) :
  score_in_range st -> score_in_range (parse_line st line).
Proof.
  unfold score_in_range, parse_line. intros H.
  destruct (Py.startswith line "SCORE:").
  - destruct (Py.int _); simpl; [apply clamp_range | exact H].
  - destruct (Py.startswith line "ANALYSIS:"); simpl; exact H.
Qed.

Lemma parse_text_range (st : Z * string) (text : string) :
  score_in_range st -> score_in_range (parse_text st text).
Proof.
  intros H. unfold parse_text.
  assert (score_in_range (fold_left parse_line (Py.split (Py.strip text) Py.nl) st)) as H'.
  { apply fold_left_invariant; [apply parse_line_range | exact H]. }
  destruct (_ && _); [exact H' | exact H'].
Qed.

Lemma parse_message_range (st : Z * string) (m : message) :
  score_in_range st -> score_in_range (parse_message st m).
Proof.
  intros H. destruct m as [content|]; simpl; [|exact H].
  apply fold_left_invariant; [|exact H].
  intros a [text|] Ha; simpl; [apply parse_text_range, Ha | exact Ha].
Qed.

Lemma analyze_range (query : string -> query_run) (code location : string) :
  1 <= fst (analyze_code_with_claude query code location) <= 10.
Proof.
  unfold analyze_code_with_claude.
  set (run := query _).
  assert (score_in_range (fold_left parse_message (yielded run)
                            (default_score, default_analysis))) as H.
  { apply fold_left_invariant; [apply parse_message_range|].
    unfold score_in_range, default_score; simpl; lia. }
  destruct (finish run); exact H.
Qed.

(** A line without the marker leaves the score as it is. *)
Lemma parse_line_keeps_score (st : Z * string) (line : string) :
  is_score_line line = false -> fst (parse_line st line) = fst st.
Proof.
  unfold is_score_line, parse_line. intros ->.
  destruct (Py.startswith line "ANALYSIS:"); reflexivity.
Qed.

(** So does a line with the marker that [int] rejects. *)
Lemma parse_line_unparsable (st : Z * string) (line : string) :
  score_of_line line = None -> fst (parse_line st line) = fst st.
Proof.
  unfold score_of_line, parse_line. intros H.
  destruct (Py.startswith line "SCORE:").
  - rewrite H. reflexivity.
  - destruct (Py.startswith line "ANALYSIS:"); reflexivity.
Qed.

Lemma parse_line_parsed (st : Z * string) (line : string) (n : Z) :
  is_score_line line = true -> score_of_line line = Some n ->
  fst (parse_line st line) = clamp n.
Proof.
  unfold is_score_line, score_of_line, parse_line. intros -> ->. reflexivity.
Qed.

Lemma fold_parse_line_keeps_score (lines : list string) :
  Forall (fun l => is_score_line l = true -> score_of_line l = None) lines ->
  forall st, fst (fold_left parse_line lines st) = fst st.
Proof.
  induction 1 as [|l lines Hl _ IH]; intros st; simpl; [reflexivity|].
  rewrite IH. destruct (is_score_line l) eqn:E.
  - apply parse_line_unparsable, Hl, eq_refl.
  - apply parse_line_keeps_score, E.
Qed.

Lemma parse_text_score (st : Z * string) (text : string) :
  fst (parse_text st text) = fst (fold_left parse_line (reply_lines text) st).
Proof. unfold parse_text, reply_lines. destruct (_ && _); reflexivity. Qed.

Lemma existsb_false_Forall {A : Type} (p : A -> bool) (l : list A) :
  existsb p l = false -> Forall (fun x => p x = false) l.
Proof.
  induction l as [|x l IH]; simpl; intros H; constructor.
  - destruct (p x); [discriminate H | reflexivity].
  - apply IH. destruct (p x); [discriminate H | exact H].
Qed.

Lemma parse_block_no_score_line (st : Z * string) (b : content_block) :
  block_has_score_line b = false -> fst (parse_block st b) = fst st.
Proof.
  destruct b as [text|]; simpl; [|reflexivity]. intros H.
  rewrite parse_text_score. apply fold_parse_line_keeps_score.
  apply existsb_false_Forall in H.
  eapply Forall_impl; [exact H|]. simpl. intros l Hl Ht. congruence.
Qed.

Lemma fold_parse_block_no_score_line (content : list content_block) :
  existsb block_has_score_line content = false ->
  forall st, fst (fold_left parse_block content st) = fst st.
Proof.
  intros H. apply existsb_false_Forall in H.
  induction H as [|b content Hb _ IH]; intros st; simpl; [reflexivity|].
  rewrite IH. apply parse_block_no_score_line, Hb.
Qed.

Lemma fold_parse_message_no_score_line (msgs : list message) :
  has_score_line msgs = false ->
  forall st, fst (fold_left parse_message msgs st) = fst st.
Proof.
  unfold has_score_line. intros H. apply existsb_false_Forall in H.
  induction H as [|m msgs Hm _ IH]; intros st; simpl; [reflexivity|].
  rewrite IH. destruct m as [content|]; simpl; [|reflexivity].
  apply fold_parse_block_no_score_line, Hm.
Qed.

(** ** Properties of the scan *)

Lemma StronglySorted_snoc {A : Type} (R : A -> A -> Prop) (l : list A) (x : A) :
  StronglySorted R l -> Forall (fun y => R y x) l -> StronglySorted R (l ++ [x]).
Proof.
  induction 1 as [|y l Hl IH Hy]; intros Hx; simpl.
  - constructor; constructor.
  - inversion Hx as [|? ? Hyx Hlx]; subst.
    constructor; [apply IH, Hlx|].
    apply Forall_app; split; [exact Hy | constructor; [exact Hyx | constructor]].
Qed.

Lemma with_finding_invariant (c : MacroChecker) (f : MacroFinding) :
  scan_invariant c -> item_number f = item_counter c + 1 -> 1 <= score f <= 10 ->
  scan_invariant (with_finding c f).
Proof.
  intros (Hs & Hn & Hr) Hf Hsc. unfold scan_invariant; simpl. repeat split.
  - apply StronglySorted_snoc; [exact Hs|].
    eapply Forall_impl; [exact Hn|]. unfold discovered_before. simpl. intros; lia.
  - apply Forall_app; split.
    + eapply Forall_impl; [exact Hn|]. simpl. intros; lia.
    + constructor; [lia | constructor].
  - apply Forall_app; split; [exact Hr | constructor; [exact Hsc | constructor]].
Qed.

Lemma scan_macros_invariant (oracle : Z -> string -> query_run)
    (vba_macros : list (string * string)) :
  forall c, scan_invariant c -> scan_invariant (scan_macros oracle vba_macros c).
Proof.
  induction vba_macros as [|[location code] rest IH]; intros c Hc; simpl; [exact Hc|].
  pose proof (analyze_range (oracle (item_counter c + 1)) code location) as Hr.
  destruct (analyze_code_with_claude _ code location) as [sc an].
  apply IH, with_finding_invariant; [exact Hc | reflexivity | exact Hr].
Qed.

Lemma scan_formulas_invariant (oracle : Z -> string -> query_run)
    (formula_cells : list formula_cell) :
  forall c c', scan_invariant c ->
    scan_formulas oracle formula_cells c = Ok c' -> scan_invariant c'.
Proof.
  induction formula_cells as [|[[[[location formula] sheet_name] col] row] rest IH];
    intros c c' Hc; simpl.
  - intros [= <-]. exact Hc.
  - pose proof (analyze_range (oracle (item_counter c + 1)) formula location) as Hr.
    destruct (analyze_code_with_claude _ formula location) as [sc an].
    destruct (get_column_letter col) as [col_letter|e]; simpl; [|discriminate].
    apply IH, with_finding_invariant; [exact Hc | reflexivity | exact Hr].
Qed.

Lemma load_spreadsheet_findings (c : MacroChecker) (w : World) :
  findings (load_spreadsheet c w).1.2 = findings c
  /\ item_counter (load_spreadsheet c w).1.2 = item_counter c.
Proof.
  unfold load_spreadsheet.
  destruct (_ || _).
  - destruct (load_workbook _ _) as [[l w']|e]; simpl; auto.
  - destruct (String.eqb _ ".ods"); [|simpl; auto].
    destruct (negb _); [simpl; auto|].
    destruct (load_odf _ _) as [[l w']|e]; simpl; auto.
Qed.

Lemma scan_file_invariant (oracle : Z -> string -> query_run)
    (c c' : MacroChecker) (w w' : World) (b : bool) :
  scan_invariant c -> scan_file oracle c w = Ok (b, c', w') -> scan_invariant c'.
Proof.
  intros Hc. unfold scan_file.
  pose proof (load_spreadsheet_findings c w) as [Hf Hn].
  destruct (load_spreadsheet c w) as [[loaded c1] w1]; simpl in Hf, Hn.
  assert (scan_invariant c1) as Hc1.
  { unfold scan_invariant. rewrite Hf, Hn. exact Hc. }
  destruct loaded; simpl.
  - destruct (detect_formula_cells _ w1) as [fcs|e]; simpl; [|discriminate].
    destruct (scan_formulas oracle fcs _) as [c2|e] eqn:E; simpl; [|discriminate].
    intros [= <- <- <-].
    eapply scan_formulas_invariant; [|exact E].
    apply scan_macros_invariant, Hc1.
  - intros [= <- <- <-]. exact Hc1.
Qed.

Lemma init_invariant (input_file : string) (remove_threshold : Z) :
  scan_invariant (__init__ input_file remove_threshold).
Proof. unfold scan_invariant; simpl. repeat split; constructor. Qed.

(** ** Properties of the sort *)

Section SortedFacts.
Context {A : Type} (key : A -> Z).

Lemma insert_by_perm (x : A) (l : list A) :
  Permutation (Py.insert_by key x l) (x :: l).
Proof.
  induction l as [|y l IH]; simpl; [reflexivity|].
  destruct (key x <=? key y); [reflexivity|].
  rewrite IH. apply perm_swap.
Qed.

Lemma sorted_perm (l : list A) : Permutation (Py.sorted key l) l.
Proof.
  induction l as [|x l IH]; simpl; [reflexivity|].
  unfold Py.sorted in *. simpl. rewrite insert_by_perm, IH. reflexivity.
Qed.

(** Among equal keys the result keeps a relation [before] that the
    input respects. *)
Context (before : A -> A -> Prop).

Lemma insert_by_sorted (x : A) (l : list A) :
  StronglySorted (key_then_before key before) l -> Forall (before x) l ->
  StronglySorted (key_then_before key before) (Py.insert_by key x l).
Proof.
  induction 1 as [|y l Hl IH Hy]; intros Hx; simpl.
  - constructor; constructor.
  - inversion Hx as [|? ? Hxy Hxl]; subst.
    destruct (key x <=? key y) eqn:E.
    + apply Z.leb_le in E. constructor; [constructor; assumption|].
      constructor.
      * unfold key_then_before. destruct (Z.eq_dec (key x) (key y)); [right|left]; auto; lia.
      * rewrite Forall_forall in *. intros z Hz.
        specialize (Hy z Hz). specialize (Hxl z Hz).
        unfold key_then_before in *.
        destruct (Z.eq_dec (key x) (key z)); [right|left]; auto; lia.
    + apply Z.leb_gt in E. constructor; [apply IH, Hxl|].
      rewrite (insert_by_perm x l). constructor; [|exact Hy].
      left. exact E.
Qed.

Lemma sorted_stable (l : list A) :
  StronglySorted before l -> StronglySorted (key_then_before key before) (Py.sorted key l).
Proof.
  induction 1 as [|x l Hl IH Hx]; simpl; [constructor|].
  apply insert_by_sorted; [exact IH|].
  rewrite sorted_perm. exact Hx.
Qed.
End SortedFacts.

(** ** The classifier adapter: claims *)

(** C4. Every score that classification produces lies between 1 and 10,
    whatever the oracle replies: a reply without a [SCORE:] line keeps the
    midpoint 5, a parsed integer is clamped into the scale, and so every
    finding that [scan_file] stores has its score within the scale. *)
Theorem C4_score_within_scale :
  (forall query code location,
      1 <= fst (analyze_code_with_claude query code location) <= 10)
  /\ (forall query code location,
        has_score_line (yielded (query (build_prompt code location))) = false ->
        fst (analyze_code_with_claude query code location) = 5)
  /\ (forall query code location text line n,
        query (build_prompt code location) = one_reply text ->
        reply_lines text = [line] ->
        is_score_line line = true -> score_of_line line = Some n ->
        fst (analyze_code_with_claude query code location) = Z.max 1 (Z.min 10 n))
  /\ (forall oracle input_file remove_threshold w b c' w',
        scan_file oracle (__init__ input_file remove_threshold) w = Ok (b, c', w') ->
        Forall (fun f => 1 <= score f <= 10) (findings c')).
Proof.
  split; [exact analyze_range|]. split; [|split].
  - intros query code location H. unfold analyze_code_with_claude.
    pose proof (fold_parse_message_no_score_line _ H (default_score, default_analysis)) as E.
    destruct (finish _); simpl; exact E.
  - intros query code location text line n Hq Hl Hs Hn.
    unfold analyze_code_with_claude. rewrite Hq. simpl.
    rewrite parse_text_score, Hl. simpl.
    apply parse_line_parsed; assumption.
  - intros oracle input_file remove_threshold w b c' w' H.
    eapply scan_file_invariant in H; [|apply init_invariant].
    apply H.
Qed.


(** C9, as the code has it. The loop over the lines has no early exit, so
    the score comes from the last line with the [SCORE:] marker that
    [int] accepts. *)
Theorem C9_last_parsable_score_line (query : string -> query_run)
    (code location text : string) (before : list string) (line : string)
    (after : list string) (n : Z) :
  query (build_prompt code location) = one_reply text ->
  reply_lines text = (before ++ line :: after)%list ->
  is_score_line line = true ->
  score_of_line line = Some n ->
  Forall (fun l => is_score_line l = true -> score_of_line l = None) after ->
  fst (analyze_code_with_claude query code location) = clamp n.
Proof.
  intros Hq Hl Hs Hn Ha.
  unfold analyze_code_with_claude. rewrite Hq. simpl.
  rewrite parse_text_score, Hl, fold_left_app. simpl.
  rewrite (fold_parse_line_keeps_score _ Ha).
  apply parse_line_parsed; assumption.
Qed.

Lemma C4_witness :
  fst (analyze_code_with_claude (fun _ => one_reply "no verdict") "=A1" "Sheet1!A1") = 5
  /\ fst (analyze_code_with_claude (fun _ => one_reply "SCORE: 42") "=A1" "Sheet1!A1") = 10
  /\ Forall (fun f => 1 <= score f <= 10) (findings (fst scanned_book)).
Proof.
  destruct C4_score_within_scale as (_ & Hnone & Hclamp & Hscan). split; [|split].
  - apply Hnone. reflexivity.
  - apply (Hclamp _ _ _ "SCORE: 42" "SCORE: 42" 42); reflexivity.
  - apply (Hscan example_oracle "book.xlsx" 5 example_world true
             (fst scanned_book) (snd scanned_book)).
    vm_compute. reflexivity.
Defined.



Lemma C9_witness :
  fst (analyze_code_with_claude (fun _ => one_reply two_score_lines) "=A1" "Sheet1!A1") = 9.
Proof.
  apply (C9_last_parsable_score_line _ _ _ two_score_lines ["SCORE: 2"] "SCORE: 9" [] 9);
    try reflexivity.
  constructor.
Defined.

(** C9 as stated fails: with two [SCORE:] lines the result is not the
    score of the first one. *)
Lemma C9_counterexample :
  spec_score_from_first_line two_score_lines = 2
  /\ fst (analyze_code_with_claude (fun _ => one_reply two_score_lines) "=A1" "Sheet1!A1") = 9
  /\ fst (analyze_code_with_claude (fun _ => one_reply two_score_lines) "=A1" "Sheet1!A1")
     <> spec_score_from_first_line two_score_lines.
Proof. split; [reflexivity|]. split; [reflexivity|]. vm_compute. discriminate. Qed.

(** ** The report: claims *)

Lemma report_order_sorted (c : MacroChecker) :
  StronglySorted discovered_before (findings c) ->
  StronglySorted entry_before (report_order c).
Proof. intros H. apply (sorted_stable score discovered_before), H. Qed.

(** C8. The detailed entries of the report are the findings in ascending
    order of score, findings of equal score in ascending order of item
    number: this holds for findings listed in discovery order, which is
    how [scan_file] stores them whatever their scores. *)
Theorem C8_entries_sorted :
  (forall c now,
      StronglySorted discovered_before (findings c) ->
      generate_markdown_report c now
      = report_head c +:+ strftime now +:+ report_summary c
        +:+ String.concat EmptyString (map report_entry (report_order c))
      /\ Permutation (report_order c) (findings c)
      /\ StronglySorted entry_before (report_order c))
  /\ (forall oracle input_file remove_threshold w b c' w',
        scan_file oracle (__init__ input_file remove_threshold) w = Ok (b, c', w') ->
        StronglySorted discovered_before (findings c')).
Proof.
  split.
  - intros c now H. split; [reflexivity|]. split.
    + apply sorted_perm.
    + apply report_order_sorted, H.
  - intros oracle input_file remove_threshold w b c' w' H.
    eapply scan_file_invariant in H; [|apply init_invariant]. apply H.
Qed.

Lemma C8_witness :
  map item_number (findings (fst scanned_book)) = [1; 2; 3; 4]
  /\ map score (findings (fst scanned_book)) = [8; 3; 3; 5]
  /\ map item_number (report_order (fst scanned_book)) = [2; 3; 4; 1]
  /\ StronglySorted entry_before (report_order (fst scanned_book)).
Proof.
  split; [reflexivity|]. split; [reflexivity|]. split; [reflexivity|].
  destruct C8_entries_sorted as [Hsorted Hscan].
  apply (Hsorted (fst scanned_book) morning).
  apply (Hscan example_oracle "book.xlsx" 5 example_world true
           (fst scanned_book) (snd scanned_book)).
  vm_compute. reflexivity.
Defined.

(** C7, as the code has it. The report is a function of the file name,
    the findings, the threshold and the reading of the clock taken during
    the call, formatted to the second: two calls that agree on these give
    the same text, whatever else differs in the checker. *)
Theorem C7_report_determined_by (c1 c2 : MacroChecker) (now1 now2 : datetime) :
  path_name (input_file c1) = path_name (input_file c2) ->
  findings c1 = findings c2 ->
  remove_threshold c1 = remove_threshold c2 ->
  strftime now1 = strftime now2 ->
  generate_markdown_report c1 now1 = generate_markdown_report c2 now2.
Proof.
  intros Hn Hf Ht Hs.
  unfold generate_markdown_report, report_head, report_summary, report_order.
  rewrite Hn, Hf, Ht, Hs. reflexivity.
Qed.

Lemma C7_witness :
  generate_markdown_report (__init__ "inbox/book.xlsx" 5) morning
  = generate_markdown_report (with_file_type (__init__ "archive/book.xlsx" 5) excel) morning.
Proof. apply C7_report_determined_by; reflexivity. Defined.

(** C7 as stated fails: the same checker reports differently a second
    later, because the call reads the clock. *)
Lemma C7_counterexample :
  generate_markdown_report (fst scanned_book) morning
  <> generate_markdown_report (fst scanned_book) a_second_later.
Proof. apply String.eqb_neq. vm_compute. reflexivity. Qed.

(** ** The composite-document extractor: claims *)

(** A skipped run yields no fragment, with or without a formula. *)
Lemma skipped_run_yields_nothing (sheet_name : string) (row_num col_num : Z)
    (cell : TableCell) (n : Z) :
  skipped_run cell = Some n -> detect_cell sheet_name row_num col_num cell = Ok None.
Proof. unfold detect_cell. intros ->. reflexivity. Qed.

Lemma detect_cells_app (sheet_name : string) (row_num : Z) (l1 l2 : list TableCell) :
  forall col_num acc,
    detect_cells sheet_name row_num col_num (l1 ++ l2)%list acc
    = detect_cells sheet_name row_num col_num l1 acc
        ≫= detect_cells sheet_name row_num (fold_left detect_col_after l1 col_num) l2.
Proof.
  induction l1 as [|cell l1 IH]; intros col_num acc; simpl; [reflexivity|].
  destruct (detect_cell sheet_name row_num col_num cell) as [found|e]; simpl; [|reflexivity].
  apply IH.
Qed.













(** C3, the code at a run of 500 columns whose cell carries a formula:
    the extractor takes the run for padding, skips it before it reads the
    formula attribute, and extracts no fragment. *)
Theorem C3_repeated_formula_skipped :
  map table_rows (tables repeated_formula_document)
  = [[[table_cell (Some "500") (Some "of:=WEBSERVICE('http://example.com')")]]]
  /\ skipped_run (table_cell (Some "500") (Some "of:=WEBSERVICE('http://example.com')"))
     = Some 500
  /\ detect_cell "Sheet1" 1 0
       (table_cell (Some "500") (Some "of:=WEBSERVICE('http://example.com')"))
     = Ok None
  /\ _detect_ods_formulas repeated_formula_document = Ok [].
Proof. repeat split; reflexivity. Qed.

(** ** The sanitizers: claims *)

Lemma frame_refl (out : string) (w : World) : frame out w w.
Proof. unfold frame. auto. Qed.

Lemma frame_trans (out : string) (w1 w2 w3 : World) :
  frame out w1 w2 -> frame out w2 w3 -> frame out w1 w3.
Proof.
  intros (Hf & Hw & Hd) (Hf' & Hw' & Hd'). unfold frame. repeat split.
  - intros p Hp. rewrite Hf', Hf; auto.
  - intros l wb H. apply Hw', Hw, H.
  - intros l doc H. apply Hd', Hd, H.
Qed.

Lemma frame_print (out : string) (w : World) (l : printed) : frame out w (print w l).
Proof. unfold frame. simpl. auto. Qed.

Lemma frame_load_workbook (out path : string) (w w' : World) (l : positive) :
  load_workbook w path = Ok (l, w') ->
  frame out w w' /\ workbooks w !! l = None /\ is_Some (workbooks w' !! l).
Proof.
  unfold load_workbook.
  destruct (content <$> files w !! path) as [[wb|doc|]|]; try discriminate.
  intros [= <- <-].
  assert (workbooks w !! fresh (dom (workbooks w)) = None) as Hfresh.
  { apply not_elem_of_dom, is_fresh. }
  split; [|split; [exact Hfresh|]].
  - unfold frame. simpl. repeat split; auto.
    intros l wb0 H. rewrite lookup_insert_ne; [exact H|]. congruence.
  - simpl. rewrite lookup_insert_eq. eauto.
Qed.

Lemma frame_load_odf (out path : string) (w w' : World) (l : positive) :
  load_odf w path = Ok (l, w') ->
  frame out w w' /\ documents w !! l = None /\ is_Some (documents w' !! l).
Proof.
  unfold load_odf.
  destruct (content <$> files w !! path) as [[wb|doc|]|]; try discriminate.
  intros [= <- <-].
  assert (documents w !! fresh (dom (documents w)) = None) as Hfresh.
  { apply not_elem_of_dom, is_fresh. }
  split; [|split; [exact Hfresh|]].
  - unfold frame. simpl. repeat split; auto.
    intros l doc0 H. rewrite lookup_insert_ne; [exact H|]. congruence.
  - simpl. rewrite lookup_insert_eq. eauto.
Qed.

Lemma frame_write_file (out : string) (w w' : World) (f : File) :
  write_file w out f = Ok w' -> frame out w w' /\ files w' !! out = Some f.
Proof.
  unfold write_file. destruct (writable w out); [|discriminate].
  intros [= <-]. split.
  - unfold frame. simpl. repeat split; auto.
    intros p Hp. apply lookup_insert_ne. congruence.
  - simpl. apply lookup_insert_eq.
Qed.

Lemma frame_copy2 (src out : string) (w w' : World) :
  copy2 w src out = Ok w' -> frame out w w'.
Proof.
  unfold copy2. destruct (files w !! src) as [f|]; [|discriminate].
  destruct (String.eqb src out); [discriminate|].
  intros H. apply frame_write_file in H. apply H.
Qed.

(** Replacing an object that did not exist in [w] keeps the frame. *)
Lemma frame_set_workbook (out : string) (w w1 : World) (l : positive) (wb : Workbook) :
  frame out w w1 -> workbooks w !! l = None ->
  frame out w (with_workbooks w1 (<[l := wb]> (workbooks w1))).
Proof.
  intros (Hf & Hw & Hd) Hl. unfold frame. simpl. repeat split; auto.
  intros l0 wb0 H. rewrite lookup_insert_ne; [apply Hw, H | congruence].
Qed.

Lemma frame_set_document (out : string) (w w1 : World) (l : positive) (doc : OpenDocument) :
  frame out w w1 -> documents w !! l = None ->
  frame out w (with_documents w1 (<[l := doc]> (documents w1))).
Proof.
  intros (Hf & Hw & Hd) Hl. unfold frame. simpl. repeat split; auto.
  intros l0 doc0 H. rewrite lookup_insert_ne; [apply Hd, H | congruence].
Qed.

Lemma _create_sanitized_excel_frame (c : MacroChecker) (out : string) (w w' : World) (b : bool) :
  _create_sanitized_excel c out w = (b, w') -> frame out w w'.
Proof.
  unfold _create_sanitized_excel.
  destruct (load_workbook w (input_file c)) as [[l w1]|e] eqn:El.
  2:{ intros [= <- <-]. apply frame_print. }
  apply (frame_load_workbook out) in El as (F1 & Hl & _).
  destruct (sanitize_excel_findings _ _ _ _) as [[output_wb n]|e].
  2:{ intros [= <- <-]. eapply frame_trans; [exact F1 | apply frame_print]. }
  pose proof (frame_set_workbook out w w1 l output_wb F1 Hl) as F2.
  destruct (write_file _ out _) as [w3|e] eqn:Ew.
  2:{ intros [= <- <-]. eapply frame_trans; [exact F2 | apply frame_print]. }
  apply frame_write_file in Ew as [F3 _].
  intros [= <- <-].
  eapply frame_trans; [exact F2|].
  eapply frame_trans; [exact F3|].
  eapply frame_trans; apply frame_print.
Qed.

Lemma _create_sanitized_ods_frame (c : MacroChecker) (out : string) (w w' : World) (b : bool) :
  _create_sanitized_ods c out w = (b, w') -> frame out w w'.
Proof.
  unfold _create_sanitized_ods.
  destruct (negb (HAS_ODFPY w)); [intros [= <- <-]; apply frame_print|].
  destruct (copy2 w (input_file c) out) as [w1|e] eqn:Ec.
  2:{ intros [= <- <-]. apply frame_print. }
  apply frame_copy2 in Ec as F1.
  destruct (load_odf w1 out) as [[l w2]|e] eqn:El.
  2:{ intros [= <- <-]. eapply frame_trans; [exact F1 | apply frame_print]. }
  apply (frame_load_odf out) in El as (F2 & Hl & _).
  destruct (sanitize_tables _ _ _) as [[tables' n]|e].
  2:{ intros [= <- <-].
      eapply frame_trans; [exact F1|]. eapply frame_trans; [exact F2 | apply frame_print]. }
  match goal with
  | |- context [with_documents w2 (<[l := ?d]> (documents w2))] =>
      pose proof (frame_set_document out w1 w2 l d F2 Hl) as F3
  end.
  destruct (write_file _ out _) as [w4|e] eqn:Ew.
  2:{ intros [= <- <-].
      eapply frame_trans; [exact F1|]. eapply frame_trans; [exact F3 | apply frame_print]. }
  apply frame_write_file in Ew as [F4 _].
  intros [= <- <-].
  eapply frame_trans; [exact F1|].
  eapply frame_trans; [exact F3|].
  eapply frame_trans; [exact F4|].
  eapply frame_trans; apply frame_print.
Qed.

(** C5. A sanitizer that writes to a path other than the input leaves
    the input file as it was, changes no file but the output, and leaves
    every object that was loaded before the call, among them the container
    that extraction read, as it was: it works on an object of its own. *)
Theorem C5_original_untouched (c : MacroChecker) (output_file : string)
    (w w' : World) (b : bool) :
  output_file <> input_file c ->
  create_sanitized_copy c output_file w = (b, w') ->
  files w' !! input_file c = files w !! input_file c
  /\ (forall p, p <> output_file -> files w' !! p = files w !! p)
  /\ (forall l wb, workbooks w !! l = Some wb -> workbooks w' !! l = Some wb)
  /\ (forall l doc, documents w !! l = Some doc -> documents w' !! l = Some doc).
Proof.
  intros Hne H.
  assert (frame output_file w w') as (Hf & Hw & Hd).
  { unfold create_sanitized_copy in H. destruct (file_type c) as [[|]|].
    - eapply _create_sanitized_excel_frame, H.
    - eapply _create_sanitized_ods_frame, H.
    - injection H as <- <-. apply frame_refl. }
  split; [apply Hf; congruence|]. auto.
Qed.

Lemma C5_witness :
  files (snd (create_sanitized_copy (fst scanned_book) "clean.xlsx" (snd scanned_book)))
    !! "book.xlsx"
  = files (snd scanned_book) !! "book.xlsx"
  /\ forall l wb,
      workbooks (snd scanned_book) !! l = Some wb ->
      workbooks (snd (create_sanitized_copy (fst scanned_book) "clean.xlsx" (snd scanned_book)))
        !! l = Some wb.
Proof.
  destruct (C5_original_untouched (fst scanned_book) "clean.xlsx" (snd scanned_book)
              (snd (create_sanitized_copy (fst scanned_book) "clean.xlsx" (snd scanned_book)))
              (fst (create_sanitized_copy (fst scanned_book) "clean.xlsx" (snd scanned_book))))
    as (Hin & _ & Hwb & _).
  - vm_compute. discriminate.
  - apply surjective_pairing.
  - split; [exact Hin | exact Hwb].
Defined.

Lemma count_if_cons (p : MacroFinding -> bool) (f : MacroFinding) (l : list MacroFinding) :
  count_if p (f :: l) = (if p f then 1 else 0) + count_if p l.
Proof. unfold count_if. simpl. destruct (p f); simpl length; lia. Qed.

(** The counter of the cell-grid sanitizer counts the findings below the
    threshold that have a cell reference. *)
Lemma sanitize_excel_findings_count (threshold : Z) (fs : list MacroFinding) :
  forall output_wb items_removed output_wb' items_removed',
    sanitize_excel_findings threshold fs output_wb items_removed
    = Ok (output_wb', items_removed') ->
    items_removed' = items_removed + count_if (to_redact threshold) fs.
Proof.
  induction fs as [|finding rest IH]; intros wb n wb' n'; simpl.
  - intros [= <- <-]. unfold count_if. simpl. lia.
  - rewrite count_if_cons. unfold to_redact at 1.
    destruct (cell_reference finding) as [[[sheet_name col_letter] row]|].
    + destruct (score finding <? threshold); simpl.
      * destruct (get_sheet wb sheet_name) as [sheet|e]; simpl; [|discriminate].
        destruct (write_cell sheet _ _ _) as [sheet'|e]; simpl; [|discriminate].
        intros H. apply IH in H. lia.
      * intros H. apply IH in H. lia.
    + rewrite andb_false_r. intros H. apply IH in H. lia.
Qed.

(** C6, as the code has it. The sanitizer returns a success flag: [True]
    once the copy is written, [False] when the file type is unknown or an
    exception was caught.  The number of redacted cells is printed, not
    returned; in the cell-grid variant it is the number of findings below
    the threshold that have a cell reference. *)
Theorem C6_flag_returned_count_printed (c : MacroChecker) (output_file : string)
    (w w' : World) (b : bool) :
  create_sanitized_copy c output_file w = (b, w') ->
  (file_type c = None -> b = false /\ w' = w)
  /\ (b = true ->
      is_Some (files w' !! output_file)
      /\ exists items_removed,
          stdout w' = (stdout w
                       ++ [Line (Py.nl +:+ "Sanitized copy created: " +:+ output_file);
                           Line ("Items removed/highlighted: " +:+ Py.str items_removed)])%list
          /\ (file_type c = Some excel ->
              items_removed = count_if (to_redact (remove_threshold c)) (findings c)))
  /\ (b = false -> file_type c <> None ->
      exists prefix e, stdout w' = (stdout w ++ [ErrorLine prefix e])%list).
Proof.
  unfold create_sanitized_copy. destruct (file_type c) as [[|]|].
  - (* cell-grid *)
    unfold _create_sanitized_excel.
    destruct (load_workbook w (input_file c)) as [[l w1]|e] eqn:El.
    2:{ intros [= <- <-]. split; [discriminate|]. split; [discriminate|].
        intros _ _. simpl. eauto. }
    assert (stdout w1 = stdout w) as Hs1.
    { unfold load_workbook in El.
      destruct (content <$> files w !! input_file c) as [[wb|doc|]|]; try discriminate.
      injection El as <- <-. reflexivity. }
    destruct (sanitize_excel_findings _ _ _ _) as [[output_wb n]|e] eqn:Es.
    2:{ intros [= <- <-]. split; [discriminate|]. split; [discriminate|].
        intros _ _. simpl. rewrite Hs1. eauto. }
    apply sanitize_excel_findings_count in Es.
    destruct (write_file _ output_file _) as [w3|e] eqn:Ew.
    2:{ intros [= <- <-]. split; [discriminate|]. split; [discriminate|].
        intros _ _. simpl. rewrite Hs1. eauto. }
    assert (stdout w3 = stdout w) as Hs3.
    { unfold write_file in Ew. destruct (writable _ _); [|discriminate].
      injection Ew as <-. simpl. exact Hs1. }
    apply frame_write_file in Ew as [_ Hout].
    intros [= <- <-]. split; [discriminate|]. split; [|discriminate].
    intros _. split; [simpl; rewrite Hout; eauto|].
    exists n. split.
    + simpl. rewrite Hs3, <- app_assoc. reflexivity.
    + intros _. rewrite Es. lia.
  - (* composite document *)
    unfold _create_sanitized_ods.
    destruct (negb (HAS_ODFPY w)).
    { intros [= <- <-]. split; [discriminate|]. split; [discriminate|].
      intros _ _. simpl. eauto. }
    destruct (copy2 w (input_file c) output_file) as [w1|e] eqn:Ec.
    2:{ intros [= <- <-]. split; [discriminate|]. split; [discriminate|].
        intros _ _. simpl. eauto. }
    assert (stdout w1 = stdout w) as Hs1.
    { unfold copy2, write_file in Ec. destruct (files w !! input_file c); [|discriminate].
      destruct (String.eqb _ _); [discriminate|].
      destruct (writable _ _); [|discriminate]. injection Ec as <-. reflexivity. }
    destruct (load_odf w1 output_file) as [[l w2]|e] eqn:El.
    2:{ intros [= <- <-]. split; [discriminate|]. split; [discriminate|].
        intros _ _. simpl. rewrite Hs1. eauto. }
    assert (stdout w2 = stdout w) as Hs2.
    { unfold load_odf in El.
      destruct (content <$> files w1 !! output_file) as [[wb|doc|]|]; try discriminate.
      injection El as <- <-. simpl. exact Hs1. }
    destruct (sanitize_tables _ _ _) as [[tables' n]|e].
    2:{ intros [= <- <-]. split; [discriminate|]. split; [discriminate|].
        intros _ _. simpl. rewrite Hs2. eauto. }
    destruct (write_file _ output_file _) as [w4|e] eqn:Ew.
    2:{ intros [= <- <-]. split; [discriminate|]. split; [discriminate|].
        intros _ _. simpl. rewrite Hs2. eauto. }
    assert (stdout w4 = stdout w) as Hs4.
    { unfold write_file in Ew. destruct (writable _ _); [|discriminate].
      injection Ew as <-. simpl. exact Hs2. }
    apply frame_write_file in Ew as [_ Hout].
    intros [= <- <-]. split; [discriminate|]. split; [|discriminate].
    intros _. split; [simpl; rewrite Hout; eauto|].
    exists n. split; [|discriminate].
    simpl. rewrite Hs4, <- app_assoc. reflexivity.
  - intros [= <- <-]. split; [auto|]. split; [discriminate|]. intros _ H. congruence.
Qed.

Lemma C6_witness :
  is_Some (files (snd (create_sanitized_copy (fst scanned_book) "clean.xlsx" (snd scanned_book)))
             !! "clean.xlsx")
  /\ exists items_removed,
      stdout (snd (create_sanitized_copy (fst scanned_book) "clean.xlsx" (snd scanned_book)))
      = (stdout (snd scanned_book)
         ++ [Line (Py.nl +:+ "Sanitized copy created: " +:+ "clean.xlsx");
             Line ("Items removed/highlighted: " +:+ Py.str items_removed)])%list
      /\ (file_type (fst scanned_book) = Some excel ->
          items_removed = count_if (to_redact (remove_threshold (fst scanned_book)))
                            (findings (fst scanned_book))).
Proof.
  destruct (C6_flag_returned_count_printed (fst scanned_book) "clean.xlsx" (snd scanned_book)
              (snd (create_sanitized_copy (fst scanned_book) "clean.xlsx" (snd scanned_book)))
              (fst (create_sanitized_copy (fst scanned_book) "clean.xlsx" (snd scanned_book))))
    as (_ & Htrue & _).
  - apply surjective_pairing.
  - apply Htrue. vm_compute. reflexivity.
Defined.

(** C6 as stated fails: with two findings to redact the call returns
    [True], which as a number is 1. *)
Lemma C6_counterexample :
  count_if (to_redact (remove_threshold (fst scanned_book))) (findings (fst scanned_book)) = 2
  /\ fst (create_sanitized_copy (fst scanned_book) "clean.xlsx" (snd scanned_book)) = true
  /\ int_of_bool (fst (create_sanitized_copy (fst scanned_book) "clean.xlsx" (snd scanned_book)))
     <> count_if (to_redact (remove_threshold (fst scanned_book))) (findings (fst scanned_book)).
Proof.
  split; [vm_compute; reflexivity|]. split; [vm_compute; reflexivity|].
  vm_compute. discriminate.
Qed.

(** The cell-grid sanitizer, cell by cell. *)






(** C1, the code at a finding that follows a run of 500 columns: the scan
    records the formula at column SG with score 1, below the threshold 5
    and with a cell reference, and the composite-document sanitizer, whose
    counter does not follow the run, writes the copy with that cell still
    holding its formula and reports no redaction. *)
Theorem C1_finding_after_long_run_kept :
  scan_file severe_oracle (__init__ "padded.ods" 5) example_world
  = Ok (true, fst scanned_padded, snd scanned_padded)
  /\ map (fun f => (item_number f, location f, score f, cell_reference f))
       (findings (fst scanned_padded))
     = [(1, "Sheet1!SG1", 1, Some ("Sheet1", "SG", 1))]
  /\ Forall (fun f => to_redact (remove_threshold (fst scanned_padded)) f = true)
       (findings (fst scanned_padded))
  /\ fst (create_sanitized_copy (fst scanned_padded) "clean.ods" (snd scanned_padded)) = true
  /\ content <$> files (snd (create_sanitized_copy (fst scanned_padded) "clean.ods"
                               (snd scanned_padded))) !! "clean.ods"
     = Some (OdsContainer {| automaticstyles := ["YellowBackground"];
                             tables := tables padded_document |})
  /\ stdout (snd (create_sanitized_copy (fst scanned_padded) "clean.ods" (snd scanned_padded)))
     = [Line (Py.nl +:+ "Sanitized copy created: clean.ods");
        Line "Items removed/highlighted: 0"].
Proof.
  split; [vm_compute; reflexivity|].
  split; [vm_compute; reflexivity|].
  split; [vm_compute; repeat constructor|].
  split; [vm_compute; reflexivity|].
  split; vm_compute; reflexivity.
Qed.

(** ** The scan: numbering, order and provenance of the findings *)

Lemma numbered_from_app (fs gs : list MacroFinding) :
  forall n, numbered_from n fs -> numbered_from (n + Z.of_nat (length fs)) gs ->
            numbered_from n (fs ++ gs).
Proof.
  induction fs as [|f fs IH]; intros n; simpl numbered_from; simpl length.
  - intros _ H. replace (n + Z.of_nat 0) with n in H by lia. exact H.
  - intros [Hf Hfs] H. split; [exact Hf|]. apply IH; [exact Hfs|].
    replace (n + 1 + Z.of_nat (length fs)) with (n + Z.of_nat (S (length fs))) by lia.
    exact H.
Qed.

Lemma numbered_from_seq (fs : list MacroFinding) :
  forall n, numbered_from n fs ->
            map item_number fs = map (fun i => n + Z.of_nat i) (seq 1 (length fs)).
Proof.
  induction fs as [|f fs IH]; intros n; simpl numbered_from; [reflexivity|].
  intros [Hf Hfs]. simpl length. simpl seq. simpl map. f_equal; [lia|].
  rewrite (IH _ Hfs), <- (seq_shift (length fs) 1), map_map.
  apply map_ext. intros i. lia.
Qed.

Lemma same_setup_refl (c : MacroChecker) : same_setup c c.
Proof. unfold same_setup. auto. Qed.

Lemma same_setup_with_finding (c c' : MacroChecker) (f : MacroFinding) :
  same_setup c c' -> same_setup c (with_finding c' f).
Proof. unfold same_setup. simpl. auto. Qed.

(** The first loop appends one finding per macro, in order. *)
Lemma scan_macros_spec (oracle : Z -> string -> query_run)
    (vba_macros : list (string * string)) :
  forall c, exists ms,
    findings (scan_macros oracle vba_macros c) = (findings c ++ ms)%list
    /\ Forall2 finding_of_macro ms vba_macros
    /\ numbered_from (item_counter c) ms
    /\ Forall (classified oracle) ms
    /\ item_counter (scan_macros oracle vba_macros c)
       = item_counter c + Z.of_nat (length vba_macros)
    /\ same_setup c (scan_macros oracle vba_macros c).
Proof.
  induction vba_macros as [|[location code] rest IH]; intros c; simpl scan_macros.
  - exists []. rewrite app_nil_r. simpl.
    split; [reflexivity|]. split; [constructor|]. split; [exact I|].
    split; [constructor|]. split; [lia | apply same_setup_refl].
  - destruct (analyze_code_with_claude (oracle (item_counter c + 1)) code location)
      as [sc an] eqn:E.
    set (f := {| item_number := item_counter c + 1; location := location; code := code;
                 score := sc; analysis := an; cell_reference := None |}).
    destruct (IH (with_finding c f)) as (ms & Hf & H2 & Hn & Hc & Hi & Hs).
    exists (f :: ms). simpl in Hf, Hn, Hi.
    split; [rewrite Hf, <- app_assoc; reflexivity|].
    split; [constructor; [unfold finding_of_macro; simpl; auto | exact H2]|].
    split; [simpl; split; [reflexivity | exact Hn]|].
    split; [constructor; [|exact Hc]; unfold classified; simpl; rewrite E; reflexivity|].
    split; [rewrite Hi; simpl length; lia|].
    exact Hs.
Qed.

(** The second loop appends one finding per formula cell, in order. *)
Lemma scan_formulas_spec (oracle : Z -> string -> query_run)
    (formula_cells : list formula_cell) :
  forall c c', scan_formulas oracle formula_cells c = Ok c' ->
  exists fs,
    findings c' = (findings c ++ fs)%list
    /\ Forall2 finding_of_formula fs formula_cells
    /\ numbered_from (item_counter c) fs
    /\ Forall (classified oracle) fs
    /\ item_counter c' = item_counter c + Z.of_nat (length formula_cells)
    /\ same_setup c c'.
Proof.
  induction formula_cells as [|[[[[location formula] sheet_name] col] row] rest IH];
    intros c c'; simpl scan_formulas.
  - intros [= <-]. exists []. rewrite app_nil_r. simpl.
    split; [reflexivity|]. split; [constructor|]. split; [exact I|].
    split; [constructor|]. split; [lia | apply same_setup_refl].
  - destruct (analyze_code_with_claude (oracle (item_counter c + 1)) formula location)
      as [sc an] eqn:E.
    destruct (get_column_letter col) as [col_letter|e] eqn:El; simpl; [|discriminate].
    set (f := {| item_number := item_counter c + 1; location := location; code := formula;
                 score := sc; analysis := an;
                 cell_reference := Some (sheet_name, col_letter, row) |}).
    intros H. destruct (IH _ _ H) as (fs & Hf & H2 & Hn & Hc & Hi & Hs).
    exists (f :: fs). simpl in Hf, Hn, Hi.
    split; [rewrite Hf, <- app_assoc; reflexivity|].
    split; [constructor; [|exact H2]; simpl; eauto|].
    split; [simpl; split; [reflexivity | exact Hn]|].
    split; [constructor; [|exact Hc]; unfold classified; simpl; rewrite E; reflexivity|].
    split; [rewrite Hi; simpl length; lia|].
    exact Hs.
Qed.







Lemma detect_vba_macros_same (c c' : MacroChecker) (w : World) :
  input_file c' = input_file c -> detect_vba_macros c' w = detect_vba_macros c w.
Proof. unfold detect_vba_macros. intros ->. reflexivity. Qed.

Lemma detect_formula_cells_same (c c' : MacroChecker) (w : World) :
  same_setup c c' -> detect_formula_cells c' w = detect_formula_cells c w.
Proof.
  intros (_ & _ & Hw & Hd & Ht). unfold detect_formula_cells. rewrite Hw, Hd, Ht. reflexivity.
Qed.

Lemma same_setup_trans (c1 c2 c3 : MacroChecker) :
  same_setup c1 c2 -> same_setup c2 c3 -> same_setup c1 c3.
Proof.
  unfold same_setup. intros (A1 & A2 & A3 & A4 & A5) (B1 & B2 & B3 & B4 & B5).
  repeat split; congruence.
Qed.

(** The whole of a successful scan, from any checker. *)
Lemma scan_file_spec (oracle : Z -> string -> query_run) (c c' : MacroChecker)
    (w w' : World) :
  scan_file oracle c w = Ok (true, c', w') ->
  exists c1 ms fs fcs,
    load_spreadsheet c w = (true, c1, w')
    /\ findings c' = (findings c ++ ms ++ fs)%list
    /\ detect_formula_cells c' w' = Ok fcs
    /\ Forall2 finding_of_macro ms (detect_vba_macros c' w')
    /\ Forall2 finding_of_formula fs fcs
    /\ numbered_from (item_counter c) (ms ++ fs)
    /\ Forall (classified oracle) (ms ++ fs)
    /\ item_counter c' = item_counter c + Z.of_nat (length (ms ++ fs))
    /\ same_setup c1 c'.
Proof.
  unfold scan_file.
  destruct (load_spreadsheet c w) as [[loaded c1] w1] eqn:El.
  destruct loaded; simpl; [|discriminate].
  destruct (scan_macros_spec oracle (detect_vba_macros c1 w1) c1)
    as (ms & Hm & Hm2 & Hmn & Hmc & Hmi & Hms).
  destruct (detect_formula_cells _ w1) as [fcs|e] eqn:Ed; simpl; [|discriminate].
  destruct (scan_formulas oracle fcs _) as [c2|e] eqn:Es; simpl; [|discriminate].
  intros [= <- <-].
  destruct (scan_formulas_spec _ _ _ _ Es) as (fs & Hf & Hf2 & Hfn & Hfc & Hfi & Hfs).
  pose proof (same_setup_trans _ _ _ Hms Hfs) as Hs.
  pose proof (load_spreadsheet_findings c w) as [Hfind Hcount].
  rewrite El in Hfind, Hcount. simpl in Hfind, Hcount.
  pose proof (Forall2_length _ _ _ Hm2) as Lm.
  pose proof (Forall2_length _ _ _ Hf2) as Lf.
  exists c1, ms, fs, fcs.
  split; [reflexivity|].
  split; [rewrite Hf, Hm, Hfind, <- app_assoc; reflexivity|].
  split; [rewrite (detect_formula_cells_same _ _ _ Hfs); exact Ed|].
  split; [rewrite (detect_vba_macros_same c1 c2 w1 (proj1 Hs)); exact Hm2|].
  split; [exact Hf2|].
  split.
  { rewrite <- Hcount. apply numbered_from_app; [exact Hmn|].
    rewrite Lm, <- Hmi. exact Hfn. }
  split; [apply Forall_app; split; assumption|].
  split; [rewrite Hfi, Hmi, Hcount, length_app, Lm, Lf; lia | exact Hs].
Qed.


(** X3. A scan from a new checker numbers its findings 1, 2, 3, ... in
    the order of the list, and leaves the counter at their number. *)
Theorem X3_scan_numbers_findings (oracle : Z -> string -> query_run)
    (input_file : string) (remove_threshold : Z) (w w' : World) (c' : MacroChecker) :
  scan_file oracle (__init__ input_file remove_threshold) w = Ok (true, c', w') ->
  map item_number (findings c') = map Z.of_nat (seq 1 (length (findings c')))
  /\ item_counter c' = Z.of_nat (length (findings c')).
Proof.
  intros H. apply scan_file_spec in H
    as (c1 & ms & fs & fcs & _ & Hf & _ & _ & _ & Hn & _ & Hi & _).
  simpl in Hf, Hn, Hi. rewrite Hf. split; [|lia].
  rewrite (numbered_from_seq _ _ Hn). apply map_ext. intros i. lia.
Qed.

Lemma X3_witness :
  map item_number (findings (fst scanned_book)) = map Z.of_nat (seq 1 4)
  /\ item_counter (fst scanned_book) = 4.
Proof.
  apply (X3_scan_numbers_findings example_oracle "book.xlsx" 5 example_world
           (snd scanned_book) (fst scanned_book)).
  vm_compute. reflexivity.
Defined.

(** X4. The findings of a successful scan are the fragments that the two
    detectors report, one finding per fragment, none invented and none
    lost: first the macro modules, without cell reference, then the
    formula cells, each with the sheet, column letter and row of its cell,
    all in the order of detection and with the text and location of the
    fragment. *)
Theorem X4_scan_findings_are_fragments (oracle : Z -> string -> query_run)
    (input_file : string) (remove_threshold : Z) (w w' : World) (c' : MacroChecker) :
  scan_file oracle (__init__ input_file remove_threshold) w = Ok (true, c', w') ->
  exists ms fs fcs,
    findings c' = (ms ++ fs)%list
    /\ detect_formula_cells c' w' = Ok fcs
    /\ Forall2 finding_of_macro ms (detect_vba_macros c' w')
    /\ Forall2 finding_of_formula fs fcs
    /\ length (findings c')
       = (length (detect_vba_macros c' w') + length fcs)%nat.
Proof.
  intros H. apply scan_file_spec in H
    as (c1 & ms & fs & fcs & _ & Hf & Hd & Hm & Hfs & _).
  simpl in Hf. exists ms, fs, fcs. repeat split; try assumption.
  rewrite Hf, length_app, (Forall2_length _ _ _ Hm), (Forall2_length _ _ _ Hfs).
  reflexivity.
Qed.

Lemma X4_witness :
  exists ms fs fcs,
    findings (fst scanned_book) = (ms ++ fs)%list
    /\ detect_formula_cells (fst scanned_book) (snd scanned_book) = Ok fcs
    /\ Forall2 finding_of_macro ms (detect_vba_macros (fst scanned_book) (snd scanned_book))
    /\ Forall2 finding_of_formula fs fcs
    /\ length (findings (fst scanned_book))
       = (length (detect_vba_macros (fst scanned_book) (snd scanned_book)) + length fcs)%nat.
Proof.
  apply (X4_scan_findings_are_fragments example_oracle "book.xlsx" 5 example_world).
  vm_compute. reflexivity.
Defined.

(** X5. Every finding of a successful scan carries the score and the
    rationale that the classifier adapter returns for the request made
    under the finding's own item number, with the finding's code and
    location: one request per fragment, in the order of the numbers. *)
Theorem X5_scan_classifies_each_fragment (oracle : Z -> string -> query_run)
    (input_file : string) (remove_threshold : Z) (w w' : World) (c' : MacroChecker) :
  scan_file oracle (__init__ input_file remove_threshold) w = Ok (true, c', w') ->
  Forall (fun f =>
            (score f, analysis f)
            = analyze_code_with_claude (oracle (item_number f)) (code f) (location f))
         (findings c').
Proof.
  intros H. apply scan_file_spec in H
    as (c1 & ms & fs & fcs & _ & Hf & _ & _ & _ & _ & Hc & _).
  simpl in Hf. rewrite Hf. exact Hc.
Qed.

Lemma X5_witness :
  Forall (fun f =>
            (score f, analysis f)
            = analyze_code_with_claude (example_oracle (item_number f)) (code f) (location f))
         (findings (fst scanned_book)).
Proof.
  apply (X5_scan_classifies_each_fragment example_oracle "book.xlsx" 5 example_world
           (snd scanned_book)).
  vm_compute. reflexivity.
Defined.



(** ** The cell-grid extractor *)

Lemma excel_cell_valid_row (sheet_name : string) (sheet : Worksheet) (row col : Z)
    (found : option formula_cell) :
  excel_cell sheet_name sheet row col = Ok found -> valid_row row = true.
Proof. unfold excel_cell. destruct (valid_row row); [reflexivity | discriminate]. Qed.

Lemma excel_row_closed (sheet_name : string) (sheet : Worksheet) (row : Z) (cols : list nat) :
  forall acc r, excel_row sheet_name sheet row cols acc = Ok r ->
                r = (acc ++ omap (excel_found sheet_name sheet row) cols)%list
                /\ (forall col, In col cols -> valid_row row = true).
Proof.
  induction cols as [|col cols IH]; intros acc r; simpl excel_row.
  - intros [= <-]. simpl. rewrite app_nil_r. split; [reflexivity | intros col []].
  - destruct (excel_cell sheet_name sheet row (Z.of_nat col)) as [found|e] eqn:E;
      simpl; [|discriminate].
    intros H. apply IH in H as [-> Hv]. split.
    + assert (excel_found sheet_name sheet row col = found) as ->.
      { unfold excel_found. rewrite E. reflexivity. }
      destruct found as [fc|]; [rewrite <- app_assoc|]; reflexivity.
    + intros col' _. apply (excel_cell_valid_row _ _ _ _ _ E).
Qed.

Lemma excel_rows_closed (sheet_name : string) (sheet : Worksheet) (rows : list nat) :
  forall acc r, excel_rows sheet_name sheet rows acc = Ok r ->
    r = (acc ++ flat_map (fun row => omap (excel_found sheet_name sheet (Z.of_nat row))
                                          (seq 1 (max_column sheet))) rows)%list
    /\ (forall row col, In row rows -> In col (seq 1 (max_column sheet)) ->
                        valid_row (Z.of_nat row) = true).
Proof.
  induction rows as [|row rows IH]; intros acc r; simpl excel_rows.
  - intros [= <-]. simpl. rewrite app_nil_r. split; [reflexivity | intros row col []].
  - destruct (excel_row _ _ _ _ acc) as [acc'|e] eqn:E; simpl; [|discriminate].
    apply excel_row_closed in E as [-> Hv]. intros H. apply IH in H as [-> Hvs]. split.
    + simpl flat_map. rewrite <- app_assoc. reflexivity.
    + intros row' col [<-|Hr] Hc; [apply (Hv col Hc) | apply (Hvs row' col Hr Hc)].
Qed.

Lemma excel_sheets_closed (wb : Workbook) (names : list string) :
  forall acc r, excel_sheets wb names acc = Ok r ->
    r = (acc ++ flat_map
                  (fun sheet_name =>
                     match get_sheet wb sheet_name with
                     | Ok (worksheet sheet) =>
                         flat_map (fun row => omap (excel_found sheet_name sheet (Z.of_nat row))
                                                   (seq 1 (max_column sheet)))
                                  (seq 1 (max_row sheet))
                     | _ => []
                     end) names)%list
    /\ (forall sheet_name, In sheet_name names -> walked wb sheet_name).
Proof.
  induction names as [|sheet_name names IH]; intros acc r; simpl excel_sheets.
  - intros [= <-]. simpl. rewrite app_nil_r. split; [reflexivity | intros s []].
  - destruct (get_sheet wb sheet_name) as [[sheet|]|e] eqn:Eg; simpl; try discriminate.
    destruct (excel_rows _ _ _ acc) as [acc'|e] eqn:E; simpl; [|discriminate].
    apply excel_rows_closed in E as [-> Hv]. intros H. apply IH in H as [-> Hw]. split.
    + rewrite Eg, <- app_assoc. reflexivity.
    + intros s [<-|Hs]; [exists sheet; split; [exact Eg | exact Hv] | apply Hw, Hs].
Qed.

Lemma excel_found_iff (sheet_name : string) (sheet : Worksheet) (row : Z) (col : nat)
    (fc : formula_cell) :
  excel_found sheet_name sheet row col = Some fc
  <-> valid_row row = true
      /\ exists v col_letter,
          value (cell_at sheet row (Z.of_nat col)) = StrValue v
          /\ Py.startswith v "=" = true
          /\ get_column_letter (Z.of_nat col) = Ok col_letter
          /\ fc = (sheet_name +:+ "!" +:+ (col_letter +:+ Py.str row),
                   v, sheet_name, Z.of_nat col, row).
Proof.
  unfold excel_found, excel_cell. split.
  - destruct (valid_row row); [|discriminate].
    destruct (value _) as [|v|]; try discriminate.
    destruct (Py.startswith v "=") eqn:Es; [|discriminate].
    destruct (get_column_letter _) as [col_letter|e]; simpl; [|discriminate].
    intros [= <-]. split; [reflexivity|]. exists v, col_letter. auto.
  - intros (-> & v & col_letter & -> & -> & -> & ->). reflexivity.
Qed.


Lemma NoDup_flat_map_tagged {A B K : Type} (key : B -> K) (tag : K -> A)
    (f : A -> list B) (l : list A) :
  NoDup l ->
  (forall x, In x l -> NoDup (map key (f x))) ->
  (forall x b, In b (f x) -> tag (key b) = x) ->
  NoDup (map key (flat_map f l)).
Proof.
  intros Hl Hf Ht. induction Hl as [|x l Hx Hl IH]; simpl; [constructor|].
  rewrite map_app. apply NoDup_app. split; [apply Hf; left; reflexivity|]. split.
  - intros k Hk Hk'.
    apply list_elem_of_In, in_map_iff in Hk as (b & <- & Hb).
    apply list_elem_of_In, in_map_iff in Hk' as (b' & Hkey & Hb').
    apply in_flat_map in Hb' as (y & Hy & Hb').
    apply Ht in Hb. apply Ht in Hb'. rewrite Hkey, Hb in Hb'. subst y.
    apply Hx, list_elem_of_In, Hy.
  - apply IH. intros y Hy. apply Hf. right. exact Hy.
Qed.

Lemma NoDup_omap_tagged {A B K : Type} (key : B -> K) (tag : K -> A)
    (f : A -> option B) (l : list A) :
  NoDup l ->
  (forall x b, f x = Some b -> tag (key b) = x) ->
  NoDup (map key (omap f l)).
Proof.
  intros Hl Ht. induction Hl as [|x l Hx Hl IH]; simpl; [constructor|].
  destruct (f x) as [b|] eqn:E; [|exact IH]. simpl. constructor; [|exact IH].
  intros Hk. apply list_elem_of_In, in_map_iff in Hk as (b' & Hkey & Hb').
  apply list_elem_of_In, list_elem_of_omap in Hb' as (y & Hy & Hfy).
  apply Ht in E. apply Ht in Hfy. rewrite Hkey, E in Hfy. subst y. apply Hx, Hy.
Qed.

(** X7. The cell-grid extractor is exact: when it returns, the rows it
    reports are the cells, within the dimensions of a listed sheet, whose
    value is a string beginning with [=], located by sheet, column letter
    and row; nothing else is reported and no such cell is left out.  When
    the sheet titles are distinct no cell is reported twice. *)
Theorem X7_excel_extraction_exact (wb : Workbook) (fcs : list formula_cell) :
  _detect_excel_formulas wb = Ok fcs ->
  (forall fc, In fc fcs <-> excel_formula_at wb fc)
  /\ (NoDup (sheetnames wb) -> NoDup (map position fcs)).
Proof.
  unfold _detect_excel_formulas. intros H. apply excel_sheets_closed in H as [H Hwalked].
  simpl in H. subst fcs. split.
  - intros [[[[loc v] sheet_name] col] row].
    rewrite in_flat_map. unfold excel_formula_at. split.
    + intros (s & Hs & Hin).
      destruct (get_sheet wb s) as [[ws|]|e] eqn:Eg; [|destruct Hin..].
      apply in_flat_map in Hin as (r & Hr & Hin).
      apply list_elem_of_In, list_elem_of_omap in Hin as (k & Hk & Hf).
      apply list_elem_of_In, in_seq in Hk. apply in_seq in Hr.
      apply excel_found_iff in Hf as (_ & v' & cl & Hv & Hst & Hl & [= -> -> -> -> ->]).
      exists ws, cl. repeat split; auto; lia.
    + intros (ws & cl & Hs & Hg & Hr & Hc & Hv & Hst & Hl & ->).
      exists sheet_name. split; [exact Hs|]. rewrite Hg.
      apply in_flat_map. exists (Z.to_nat row). split; [apply in_seq; lia|].
      apply list_elem_of_In, list_elem_of_omap. exists (Z.to_nat col).
      split; [apply list_elem_of_In, in_seq; lia|].
      apply excel_found_iff. rewrite !Z2Nat.id by lia. split; [|exists v, cl; auto].
      destruct (Hwalked sheet_name Hs) as (ws' & Hg' & Hrows).
      rewrite Hg in Hg'. injection Hg' as <-.
      rewrite <- (Z2Nat.id row) by lia.
      apply (Hrows (Z.to_nat row) (Z.to_nat col)); apply in_seq; lia.
  - intros Hn.
    apply (NoDup_flat_map_tagged position (fun p => fst (fst p))); [exact Hn| |].
    + intros s _. destruct (get_sheet wb s) as [[ws|]|e]; [|constructor..].
      apply (NoDup_flat_map_tagged position (fun p => Z.to_nat (snd p)));
        [apply NoDup_ListNoDup, seq_NoDup| |].
      * intros r _.
        apply (NoDup_omap_tagged position (fun p => Z.to_nat (snd (fst p))));
          [apply NoDup_ListNoDup, seq_NoDup|].
        intros k fc Hf. apply excel_found_iff in Hf as (_ & v & cl & _ & _ & _ & ->).
        simpl. apply Nat2Z.id.
      * intros r fc Hin.
        apply list_elem_of_In, list_elem_of_omap in Hin as (k & _ & Hf).
        apply excel_found_iff in Hf as (_ & v & cl & _ & _ & _ & ->).
        simpl. apply Nat2Z.id.
    + intros s fc Hin. destruct (get_sheet wb s) as [[ws|]|e]; [|destruct Hin..].
      apply in_flat_map in Hin as (r & _ & Hin).
      apply list_elem_of_In, list_elem_of_omap in Hin as (k & _ & Hf).
      apply excel_found_iff in Hf as (_ & v & cl & _ & _ & _ & ->). reflexivity.
Qed.

Lemma X7_witness :
  (In ("TestSheet!B3", "=A2", "TestSheet", 2, 3)
      [("TestSheet!A2", "=SUM(1,2)", "TestSheet", 1, 2);
       ("TestSheet!A3", "=HYPERLINK('http://example.com', 'Click me')", "TestSheet", 1, 3);
       ("TestSheet!B3", "=A2", "TestSheet", 2, 3)]
   <-> excel_formula_at [("TestSheet", worksheet grid_sheet)] ("TestSheet!B3", "=A2", "TestSheet", 2, 3))
  /\ NoDup (map position
              [("TestSheet!A2", "=SUM(1,2)", "TestSheet", 1, 2);
               ("TestSheet!A3", "=HYPERLINK('http://example.com', 'Click me')",
                "TestSheet", 1, 3);
               ("TestSheet!B3", "=A2", "TestSheet", 2, 3)]).
Proof.
  destruct (X7_excel_extraction_exact [("TestSheet", worksheet grid_sheet)]
              [("TestSheet!A2", "=SUM(1,2)", "TestSheet", 1, 2);
               ("TestSheet!A3", "=HYPERLINK('http://example.com', 'Click me')",
                "TestSheet", 1, 3);
               ("TestSheet!B3", "=A2", "TestSheet", 2, 3)]) as [Hin Hnd].
  - vm_compute. reflexivity.
  - split; [apply Hin | apply Hnd].
    constructor; [intros H; inversion H | constructor].
Defined.










(** ** The composite-document extractor *)

Lemma detect_cell_some_iff (sheet_name : string) (row_num col_num : Z) (cell : TableCell)
    (fc : formula_cell) :
  detect_cell sheet_name row_num col_num cell = Ok (Some fc)
  <-> skipped_run cell = None
      /\ exists f col_letter,
          formula cell = Some f /\ truthy (Some f) = true
          /\ get_column_letter (col_num + 1) = Ok col_letter
          /\ fc = (sheet_name +:+ "!" +:+ col_letter +:+ Py.str row_num,
                   f, sheet_name, col_num + 1, row_num).
Proof.
  unfold detect_cell. split.
  - destruct (skipped_run cell); [discriminate|].
    destruct (formula cell) as [f|]; [|discriminate].
    destruct (truthy (Some f)) eqn:Et; [|discriminate].
    destruct (get_column_letter _) as [cl|e]; simpl; [|discriminate].
    intros [= <-]. split; [reflexivity|]. exists f, cl. auto.
  - intros (-> & f & cl & -> & -> & -> & ->). reflexivity.
Qed.

Lemma detect_cells_spec (sheet_name : string) (row_num : Z) (cells : list TableCell) :
  forall col_num acc r,
    detect_cells sheet_name row_num col_num cells acc = Ok r ->
    exists new,
      r = (acc ++ new)%list
      /\ forall fc, In fc new
                    <-> exists before cell after,
                        cells = (before ++ cell :: after)%list
                        /\ detect_cell sheet_name row_num
                             (fold_left detect_col_after before col_num) cell
                           = Ok (Some fc).
Proof.
  induction cells as [|cell0 rest IH]; intros col_num acc r; simpl detect_cells.
  - intros [= <-]. exists []. rewrite app_nil_r. split; [reflexivity|].
    intros fc. split; [intros []|].
    intros (before & cell & after & H & _). destruct before; discriminate H.
  - destruct (detect_cell sheet_name row_num col_num cell0) as [found|e] eqn:E;
      simpl; [|discriminate].
    intros H. apply IH in H as (new' & -> & Hnew).
    exists ((match found with Some fc => [fc] | None => [] end) ++ new')%list.
    split; [destruct found; [rewrite <- app_assoc|]; reflexivity|].
    intros fc. rewrite in_app_iff, Hnew. split.
    + intros [Hin|(before & cell & after & -> & Hd)].
      * destruct found as [fc'|]; [|destruct Hin].
        destruct Hin as [<-|[]]. exists [], cell0, rest. auto.
      * exists (cell0 :: before), cell, after. auto.
    + intros (before & cell & after & Hc & Hd).
      destruct before as [|b before]; simpl in Hc, Hd; injection Hc as <- ->.
      * left. rewrite E in Hd. injection Hd as ->. left. reflexivity.
      * right. eauto.
Qed.

Lemma detect_rows_spec (sheet_name : string) (rows : list (list TableCell)) :
  forall row_num acc r,
    detect_rows sheet_name row_num rows acc = Ok r ->
    exists new,
      r = (acc ++ new)%list
      /\ forall fc, In fc new
                    <-> exists rows_before cells rows_after before cell after,
                        rows = (rows_before ++ cells :: rows_after)%list
                        /\ cells = (before ++ cell :: after)%list
                        /\ detect_cell sheet_name
                             (row_num + Z.of_nat (length rows_before) + 1)
                             (fold_left detect_col_after before 0) cell
                           = Ok (Some fc).
Proof.
  induction rows as [|row0 rest IH]; intros row_num acc r; simpl detect_rows.
  - intros [= <-]. exists []. rewrite app_nil_r. split; [reflexivity|].
    intros fc. split; [intros []|].
    intros (rb & cells & ra & before & cell & after & H & _). destruct rb; discriminate H.
  - destruct (detect_cells sheet_name (row_num + 1) 0 row0 acc) as [acc'|e] eqn:E;
      simpl; [|discriminate].
    apply detect_cells_spec in E as (new0 & -> & Hnew0).
    intros H. apply IH in H as (new' & -> & Hnew).
    exists (new0 ++ new')%list. split; [rewrite <- app_assoc; reflexivity|].
    intros fc. rewrite in_app_iff, Hnew0, Hnew. split.
    + intros [(before & cell & after & -> & Hd)
             |(rb & cells & ra & before & cell & after & -> & -> & Hd)].
      * exists [], (before ++ cell :: after)%list, rest, before, cell, after.
        simpl length. replace (row_num + Z.of_nat 0 + 1) with (row_num + 1) by lia. auto.
      * exists (row0 :: rb), (before ++ cell :: after)%list, ra, before, cell, after.
        simpl length.
        replace (row_num + Z.of_nat (S (length rb)) + 1)
          with (row_num + 1 + Z.of_nat (length rb) + 1) by lia. auto.
    + intros (rb & cells & ra & before & cell & after & Hr & Hc & Hd).
      destruct rb as [|b rb]; simpl in Hr; injection Hr as H0 H1; subst.
      * left. exists before, cell, after. split; [reflexivity|].
        simpl length in Hd. replace (row_num + Z.of_nat 0 + 1) with (row_num + 1) in Hd by lia.
        exact Hd.
      * right. exists rb, (before ++ cell :: after)%list, ra, before, cell, after.
        split; [reflexivity|]. split; [reflexivity|].
        simpl length in Hd.
        replace (row_num + Z.of_nat (S (length rb)) + 1)
          with (row_num + 1 + Z.of_nat (length rb) + 1) in Hd by lia.
        exact Hd.
Qed.

Lemma detect_tables_spec (ts : list Table) :
  forall acc r,
    detect_tables ts acc = Ok r ->
    exists new,
      r = (acc ++ new)%list
      /\ forall fc, In fc new
                    <-> exists t rows_before cells rows_after before cell after,
                        In t ts
                        /\ table_rows t = (rows_before ++ cells :: rows_after)%list
                        /\ cells = (before ++ cell :: after)%list
                        /\ detect_cell (sheet_name_of t)
                             (Z.of_nat (length rows_before) + 1)
                             (fold_left detect_col_after before 0) cell
                           = Ok (Some fc).
Proof.
  induction ts as [|t0 rest IH]; intros acc r; simpl detect_tables.
  - intros [= <-]. exists []. rewrite app_nil_r. split; [reflexivity|].
    intros fc. split; [intros []|]. intros (t & ? & ? & ? & ? & ? & ? & [] & _).
  - destruct (detect_rows (sheet_name_of t0) 0 (table_rows t0) acc) as [acc'|e] eqn:E;
      simpl; [|discriminate].
    apply detect_rows_spec in E as (new0 & -> & Hnew0).
    intros H. apply IH in H as (new' & -> & Hnew).
    exists (new0 ++ new')%list. split; [rewrite <- app_assoc; reflexivity|].
    intros fc. rewrite in_app_iff, Hnew0, Hnew. split.
    + intros [(rb & cells & ra & before & cell & after & Hr & Hc & Hd)
             |(t & rb & cells & ra & before & cell & after & Ht & Hr & Hc & Hd)].
      * exists t0, rb, cells, ra, before, cell, after. simpl. auto.
      * exists t, rb, cells, ra, before, cell, after. simpl. auto.
    + intros (t & rb & cells & ra & before & cell & after & [<-|Ht] & Hr & Hc & Hd).
      * left. exists rb, cells, ra, before, cell, after. auto.
      * right. exists t, rb, cells, ra, before, cell, after. auto.
Qed.

(** X9. The composite-document extractor, when it returns, reports
    exactly the cells that are not skipped as a run of more than 100 and
    carry a non-empty formula attribute: each with the name of its table
    ([Sheet] when the table has none), the row counted in row elements
    and the column that the counter gives; the text of the cell plays no
    part. *)
Theorem X9_ods_extraction_exact (doc : OpenDocument) (fcs : list formula_cell) :
  _detect_ods_formulas doc = Ok fcs ->
  forall fc, In fc fcs <-> ods_formula_at doc fc.
Proof.
  unfold _detect_ods_formulas. intros H.
  apply detect_tables_spec in H as (new & -> & Hnew). simpl.
  intros [[[[loc f] sheet_name] col] row]. rewrite Hnew. unfold ods_formula_at. split.
  - intros (t & rb & cells & ra & before & cell & after & Ht & Hr & Hc & Hd).
    apply detect_cell_some_iff in Hd as (Hs & f' & cl & Hf & Htr & Hl & [= -> -> -> -> ->]).
    exists t, rb, cells, ra, before, cell, after, cl. repeat split; auto.
  - intros (t & rb & cells & ra & before & cell & after & cl
            & Ht & -> & Hr & -> & Hc & Hs & Hf & Htr & -> & Hl & ->).
    exists t, rb, cells, ra, before, cell, after. repeat split; auto.
    apply detect_cell_some_iff. split; [exact Hs|]. exists f, cl. auto.
Qed.

Lemma X9_witness :
  In ("Sheet1!SG1", "of:=1+1", "Sheet1", 501, 1) [("Sheet1!SG1", "of:=1+1", "Sheet1", 501, 1)]
  <-> ods_formula_at padded_document ("Sheet1!SG1", "of:=1+1", "Sheet1", 501, 1).
Proof.
  apply (X9_ods_extraction_exact padded_document). reflexivity.
Defined.

Lemma raises_bind {A B : Type} (r : result A) (k : A -> result B) :
  (forall a, r = Ok a -> raises (k a)) -> raises (r ≫= k).
Proof. destruct r as [a|e]; simpl; [intros H; apply H; reflexivity | intros _; exact I]. Qed.

Lemma detect_cells_raises (sheet_name : string) (row_num : Z)
    (before : list TableCell) (cell : TableCell) (after : list TableCell) :
  forall col_num acc,
    raises (detect_cell sheet_name row_num (fold_left detect_col_after before col_num) cell) ->
    raises (detect_cells sheet_name row_num col_num (before ++ cell :: after) acc).
Proof.
  intros col_num acc H. rewrite detect_cells_app. apply raises_bind. intros acc' _.
  simpl. destruct (detect_cell _ _ _ cell); [destruct H | exact I].
Qed.

Lemma detect_rows_raises (sheet_name : string) (rows_before : list (list TableCell))
    (cells : list TableCell) (rows_after : list (list TableCell)) :
  forall row_num acc,
    (forall acc', raises (detect_cells sheet_name
                            (row_num + Z.of_nat (length rows_before) + 1) 0 cells acc')) ->
    raises (detect_rows sheet_name row_num (rows_before ++ cells :: rows_after) acc).
Proof.
  induction rows_before as [|row0 rb IH]; intros row_num acc H; simpl.
  - simpl length in H. replace (row_num + Z.of_nat 0 + 1) with (row_num + 1) in H by lia.
    specialize (H acc). destruct (detect_cells _ _ _ cells acc); [destruct H | exact I].
  - apply raises_bind. intros acc' _. apply IH. intros acc''.
    simpl length in H.
    replace (row_num + 1 + Z.of_nat (length rb) + 1)
      with (row_num + Z.of_nat (S (length rb)) + 1) by lia.
    apply H.
Qed.

Lemma detect_tables_raises (ts : list Table) (t : Table) :
  In t ts ->
  (forall acc, raises (detect_rows (sheet_name_of t) 0 (table_rows t) acc)) ->
  forall acc, raises (detect_tables ts acc).
Proof.
  induction ts as [|t0 rest IH]; intros Hin H acc; [destruct Hin|]. simpl.
  destruct Hin as [->|Hin].
  - specialize (H acc). destruct (detect_rows _ _ _ acc); [destruct H | exact I].
  - apply raises_bind. intros acc' _. apply IH; assumption.
Qed.

(** X10. One formula beyond column 18278 aborts the composite-document
    extraction: when a cell that is not skipped carries a non-empty
    formula attribute and the counter has passed 18278, the extractor
    raises the [ValueError] of [get_column_letter] instead of returning
    the formulas found so far, and [scan_file] raises with it. *)
Theorem X10_far_formula_aborts_scan (oracle : Z -> string -> query_run)
    (c : MacroChecker) (w : World) (doc : OpenDocument) (t : Table)
    (rows_before : list (list TableCell)) (cells : list TableCell)
    (rows_after : list (list TableCell))
    (before : list TableCell) (cell : TableCell) (after : list TableCell) (f : string) :
  In t (tables doc) ->
  table_rows t = (rows_before ++ cells :: rows_after)%list ->
  cells = (before ++ cell :: after)%list ->
  skipped_run cell = None -> formula cell = Some f -> truthy (Some f) = true ->
  18278 < fold_left detect_col_after before 0 + 1 ->
  raises (_detect_ods_formulas doc)
  /\ (suffix_of c = ".ods" -> HAS_ODFPY w = true ->
      content <$> files w !! input_file c = Some (OdsContainer doc) ->
      raises (scan_file oracle c w)).
Proof.
  intros Ht Hr Hc Hs Hf Htr Hfar.
  assert (raises (_detect_ods_formulas doc)) as Hraise.
  { unfold _detect_ods_formulas. apply (detect_tables_raises _ t Ht). intros acc.
    rewrite Hr. apply detect_rows_raises. intros acc'. rewrite Hc.
    apply detect_cells_raises. unfold detect_cell. rewrite Hs, Hf, Htr.
    unfold get_column_letter.
    destruct (_ <=? 18278) eqn:E; [apply Z.leb_le in E; lia|].
    rewrite andb_false_r. exact I. }
  split; [exact Hraise|].
  intros Hsuf Hodf Hcont. unfold scan_file, load_spreadsheet. fold (suffix_of c).
  rewrite Hsuf, Hodf. simpl. unfold load_odf. rewrite Hcont. cbv iota beta.
  set (l := fresh (dom (documents w))).
  set (w1 := with_documents w _).
  set (c1 := with_ods_doc _ l).
  destruct (scan_macros_spec oracle (detect_vba_macros c1 w1) c1)
    as (ms & _ & _ & _ & _ & _ & Hsame).
  rewrite (detect_formula_cells_same _ _ _ Hsame).
  unfold detect_formula_cells. simpl. rewrite lookup_insert_eq. simpl.
  destruct (_detect_ods_formulas doc); [destruct Hraise | exact I].
Qed.

Lemma X10_witness :
  raises (_detect_ods_formulas far_document)
  /\ raises (scan_file severe_oracle (__init__ "far.ods" 5) far_world).
Proof.
  destruct (X10_far_formula_aborts_scan severe_oracle (__init__ "far.ods" 5) far_world
              far_document
              {| table_name := Some "Sheet1";
                 table_rows := [[table_cell None (Some "of:=1+1")];
                                [table_cell (Some "20000") None;
                                 table_cell None (Some "of:=2+2")]] |}
              [[table_cell None (Some "of:=1+1")]]
              [table_cell (Some "20000") None; table_cell None (Some "of:=2+2")]
              []
              [table_cell (Some "20000") None]
              (table_cell None (Some "of:=2+2")) [] "of:=2+2") as [H1 H2];
    try reflexivity.
  - left. reflexivity.
  - split; [exact H1|]. apply H2; reflexivity.
Defined.

(** ** Round trips: decimal rows and column letters *)

Ltac eval_digit :=
  cbn [Py.parse_digits];
  match goal with
  | |- context [Py.digit_of ?c] =>
      let v := eval vm_compute in (Py.digit_of c) in
      change (Py.digit_of c) with v
  end;
  cbv iota beta.

Lemma parse_digits_uint_acc (d : Decimal.uint) :
  forall acc : positive,
    Py.parse_digits true (Z.pos acc) (NilEmpty.string_of_uint d)
    = Some (Z.pos (Pos.of_uint_acc d acc)).
Proof.
  induction d; intros acc; simpl NilEmpty.string_of_uint; simpl Pos.of_uint_acc;
    [reflexivity|..];
    (eval_digit;
     match goal with
     | |- Py.parse_digits true ?z _ = Some (Z.pos (Pos.of_uint_acc _ ?p)) =>
         replace z with (Z.pos p) by lia
     end; apply IHd).
Qed.

Lemma parse_digits_uint (d : Decimal.uint) :
  Py.parse_digits true 0 (NilEmpty.string_of_uint d) = Some (Z.of_N (Pos.of_uint d)).
Proof.
  induction d; simpl NilEmpty.string_of_uint; simpl Pos.of_uint; [reflexivity|..];
    eval_digit; try exact IHd; apply (parse_digits_uint_acc d).
Qed.

Lemma parse_digits_start (d : Decimal.uint) (acc : Z) :
  d <> Decimal.Nil ->
  Py.parse_digits false acc (NilEmpty.string_of_uint d)
  = Py.parse_digits true acc (NilEmpty.string_of_uint d).
Proof. destruct d; [intros H; contradiction H; reflexivity | reflexivity..]. Qed.

Lemma all_digits_uint (d : Decimal.uint) : all_digits (NilEmpty.string_of_uint d) = true.
Proof. induction d; simpl; [reflexivity | exact IHd..]. Qed.

Lemma to_uint_not_nil (p : positive) : Pos.to_uint p <> Decimal.Nil.
Proof.
  intros H. pose proof (DecimalPos.Unsigned.of_to p) as E. rewrite H in E. discriminate E.
Qed.

Lemma str_nonnegative (n : Z) :
  0 <= n ->
  exists d, d <> Decimal.Nil /\ Py.str n = NilEmpty.string_of_uint d
            /\ Z.of_N (Pos.of_uint d) = n.
Proof.
  intros H. destruct n as [|p|p]; [| |lia].
  - exists (Decimal.D0 Decimal.Nil). split; [discriminate|]. split; reflexivity.
  - exists (Pos.to_uint p). pose proof (to_uint_not_nil p) as Hn.
    split; [exact Hn|]. split.
    + unfold Py.str. simpl. unfold NilZero.string_of_uint.
      destruct (Pos.to_uint p); [contradiction Hn|..]; reflexivity.
    + rewrite DecimalPos.Unsigned.of_to. reflexivity.
Qed.

(** [int]'s digit reader reads back what [str] prints. *)
Lemma parse_digits_str (n : Z) : 0 <= n -> Py.parse_digits false 0 (Py.str n) = Some n.
Proof.
  intros H. destruct (str_nonnegative n H) as (d & Hd & -> & Hv).
  rewrite (parse_digits_start d 0 Hd), parse_digits_uint, Hv. reflexivity.
Qed.

Lemma digit_not_letter (c : ascii) : is_Some (Py.digit_of c) -> is_letter c = false.
Proof.
  destruct c as [[] [] [] [] [] [] [] []]; vm_compute; intros [x H];
    first [reflexivity | discriminate H].
Qed.

Lemma span_letters_digits (s : string) :
  all_digits s = true -> span_letters s = (EmptyString, s).
Proof.
  destruct s as [|c s]; simpl; [reflexivity|]. intros H.
  apply andb_true_iff in H as [H _]. apply bool_decide_eq_true in H.
  rewrite (digit_not_letter c H). reflexivity.
Qed.

Lemma span_letters_app (letters rest : string) :
  all_letters letters = true -> span_letters rest = (EmptyString, rest) ->
  span_letters (letters +:+ rest) = (letters, rest).
Proof.
  intros Hl Hr. induction letters as [|c letters IH]; simpl in *; [exact Hr|].
  apply andb_true_iff in Hl as [Hc Hl]. rewrite Hc, (IH Hl). reflexivity.
Qed.

Lemma column_letter_checks_all :
  forallb (fun k => column_letter_checks (Z.of_nat k)) (seq 1 (Z.to_nat 18278)) = true.
Proof. vm_compute. reflexivity. Qed.

Lemma column_letter_checked (col : Z) :
  1 <= col <= 18278 -> column_letter_checks col = true.
Proof.
  intros H. pose proof column_letter_checks_all as Hall.
  rewrite forallb_forall in Hall.
  rewrite <- (Z2Nat.id col) by lia. apply Hall, in_seq. lia.
Qed.

(** ** The cell-grid pipeline: scan, then sanitize *)

Lemma excel_extraction_sound (wb : Workbook) (fcs : list formula_cell) :
  _detect_excel_formulas wb = Ok fcs ->
  Forall (fun fc => excel_formula_at wb fc /\ valid_row (snd fc) = true) fcs.
Proof.
  unfold _detect_excel_formulas. intros H. apply excel_sheets_closed in H as [H _].
  simpl in H. subst fcs. apply Forall_forall. intros fc Hin.
  apply list_elem_of_In, in_flat_map in Hin as (s & Hs & Hin).
  destruct (get_sheet wb s) as [[ws|]|e] eqn:Eg; [|destruct Hin..].
  apply in_flat_map in Hin as (r & Hr & Hin).
  apply list_elem_of_In, list_elem_of_omap in Hin as (k & Hk & Hf).
  apply list_elem_of_In, in_seq in Hk. apply in_seq in Hr.
  apply excel_found_iff in Hf as (Hrow & v & cl & Hv & Hst & Hl & ->).
  split; [|exact Hrow].
  exists ws, cl. repeat split; auto; lia.
Qed.


Lemma get_column_letter_range (col : Z) (col_letter : string) :
  get_column_letter col = Ok col_letter -> 1 <= col <= 18278.
Proof.
  unfold get_column_letter.
  destruct (1 <=? col) eqn:E1; [|discriminate].
  destruct (col <=? 18278) eqn:E2; [|discriminate].
  intros _. apply Z.leb_le in E1, E2. lia.
Qed.

Lemma coordinate_round_trip (col row : Z) (col_letter : string) :
  get_column_letter col = Ok col_letter -> valid_row row = true ->
  coordinate_from_string (col_letter +:+ Py.str row) = Ok (row, col).
Proof.
  intros Hl Hrow. pose proof (get_column_letter_range _ _ Hl) as Hc.
  assert (0 <= row) as Hr.
  { unfold valid_row in Hrow. apply andb_true_iff in Hrow as [H _].
    apply Z.ltb_lt in H. lia. }
  assert (col_letter = column_letters 3 col EmptyString) as ->.
  { unfold get_column_letter in Hl.
    destruct ((1 <=? col) && (col <=? 18278)); [|discriminate]. injection Hl as <-. reflexivity. }
  pose proof (column_letter_checked col Hc) as Hk. unfold column_letter_checks in Hk.
  apply andb_true_iff in Hk as [Hk Hv]. apply andb_true_iff in Hk as [Hk H3].
  apply andb_true_iff in Hk as [Hlt H1]. apply Z.eqb_eq in Hv.
  destruct (str_nonnegative row Hr) as (d & Hd & Hs & Hval).
  assert (all_digits (Py.str row) = true) as Hdig by (rewrite Hs; apply all_digits_uint).
  assert ((1 <=? String.length (Py.str row))%nat = true) as Hlen.
  { rewrite Hs. destruct d; [contradiction Hd|..]; reflexivity. }
  unfold coordinate_from_string.
  rewrite (span_letters_app _ _ Hlt (span_letters_digits _ Hdig)).
  rewrite H1, H3, Hlen, Hdig. cbn [andb].
  rewrite (parse_digits_str row Hr), Hrow, Hv. reflexivity.
Qed.




Lemma set_sheet_names (wb : Workbook) (sheet_name : string) (ws : Sheet) :
  sheetnames (set_sheet wb sheet_name ws) = sheetnames wb.
Proof.
  unfold sheetnames. induction wb as [|[title ws0] wb IH]; simpl; [reflexivity|].
  destruct (String.eqb title sheet_name); simpl; [reflexivity | rewrite IH; reflexivity].
Qed.





(** X11. The cell reference stored with a formula finding names the
    cell the formula was read from.  For every row that the cell-grid
    extractor reports, the column has letters, as the scan asks of
    [get_column_letter]; the key that the sanitizer makes of these letters
    and the decimal row selects the cell at that very row and column; and
    on the sheet of the reported title that cell holds the reported
    formula. *)
Theorem X11_cell_reference_round_trip (wb : Workbook) (fcs : list formula_cell)
    (loc v sheet_name : string) (col row : Z) :
  _detect_excel_formulas wb = Ok fcs ->
  In (loc, v, sheet_name, col, row) fcs ->
  exists col_letter ws,
    get_column_letter col = Ok col_letter
    /\ coordinate_from_string (col_letter +:+ Py.str row) = Ok (row, col)
    /\ get_sheet wb sheet_name = Ok (worksheet ws)
    /\ value (cell_at ws row col) = StrValue v.
Proof.
  intros Hdet Hin. apply excel_extraction_sound in Hdet.
  rewrite Forall_forall in Hdet.
  destruct (Hdet _ (proj2 (list_elem_of_In _ _) Hin)) as [Hat Hrow].
  simpl in Hat, Hrow.
  destruct Hat as (ws & cl & _ & Hg & _ & _ & Hv & _ & Hl & _).
  exists cl, ws. split; [exact Hl|]. split; [|split; [exact Hg | exact Hv]].
  apply (coordinate_round_trip col row cl Hl Hrow).
Qed.

Lemma X11_witness :
  exists col_letter ws,
    get_column_letter 2 = Ok col_letter
    /\ coordinate_from_string (col_letter +:+ Py.str 3) = Ok (3, 2)
    /\ get_sheet [("TestSheet", worksheet grid_sheet)] "TestSheet" = Ok (worksheet ws)
    /\ value (cell_at ws 3 2) = StrValue "=A2".
Proof.
  apply (X11_cell_reference_round_trip [("TestSheet", worksheet grid_sheet)]
           [("TestSheet!A2", "=SUM(1,2)", "TestSheet", 1, 2);
            ("TestSheet!A3", "=HYPERLINK('http://example.com', 'Click me')",
             "TestSheet", 1, 3);
            ("TestSheet!B3", "=A2", "TestSheet", 2, 3)]
           "TestSheet!B3" "=A2" "TestSheet" 2 3).
  - vm_compute. reflexivity.
  - right. right. left. reflexivity.
Defined.



(** ** The report: counts *)

Lemma count_if_nil (p : MacroFinding -> bool) : count_if p [] = 0.
Proof. reflexivity. Qed.

(** X13. The four bands of the summary partition the findings whose
    scores lie between 1 and 10: their counts add up to the total, and
    after a scan they always do. *)
Theorem X13_band_counts_add_up :
  (forall fs,
      Forall (fun f => 1 <= score f <= 10) fs ->
      count_if (fun f => score f <=? 3) fs
      + count_if (fun f => (4 <=? score f) && (score f <=? 6)) fs
      + count_if (fun f => (7 <=? score f) && (score f <=? 9)) fs
      + count_if (fun f => score f =? 10) fs
      = Z.of_nat (length fs))
  /\ (forall oracle path threshold w b c' w',
        scan_file oracle (__init__ path threshold) w = Ok (b, c', w') ->
        count_if (fun f => score f <=? 3) (findings c')
        + count_if (fun f => (4 <=? score f) && (score f <=? 6)) (findings c')
        + count_if (fun f => (7 <=? score f) && (score f <=? 9)) (findings c')
        + count_if (fun f => score f =? 10) (findings c')
        = Z.of_nat (length (findings c'))).
Proof.
  assert (forall fs,
      Forall (fun f => 1 <= score f <= 10) fs ->
      count_if (fun f => score f <=? 3) fs
      + count_if (fun f => (4 <=? score f) && (score f <=? 6)) fs
      + count_if (fun f => (7 <=? score f) && (score f <=? 9)) fs
      + count_if (fun f => score f =? 10) fs
      = Z.of_nat (length fs)) as Hsum.
  { induction 1 as [|f fs Hf _ IH]; [reflexivity|].
    rewrite !count_if_cons. simpl length. rewrite Nat2Z.inj_succ, <- IH.
    destruct (score f <=? 3) eqn:E1; destruct (4 <=? score f) eqn:E2;
      destruct (score f <=? 6) eqn:E3; destruct (7 <=? score f) eqn:E4;
      destruct (score f <=? 9) eqn:E5; destruct (score f =? 10) eqn:E6;
      simpl; lia. }
  split; [exact Hsum|].
  intros oracle path threshold w b c' w' H. apply Hsum.
  eapply scan_file_invariant in H; [|apply init_invariant]. apply H.
Qed.

Lemma X13_witness :
  count_if (fun f => score f <=? 3) (findings (fst scanned_book))
  + count_if (fun f => (4 <=? score f) && (score f <=? 6)) (findings (fst scanned_book))
  + count_if (fun f => (7 <=? score f) && (score f <=? 9)) (findings (fst scanned_book))
  + count_if (fun f => score f =? 10) (findings (fst scanned_book))
  = 4.
Proof.
  destruct X13_band_counts_add_up as [_ Hscan].
  apply (Hscan example_oracle "book.xlsx" 5 example_world true
           (fst scanned_book) (snd scanned_book)).
  vm_compute. reflexivity.
Defined.

(** X14. The report counts every finding below the threshold as an item
    to be removed; the cell-grid sanitizer redacts only those that have a
    cell.  The count it reaches is the report's number less the findings
    below the threshold without cell reference, the macro findings. *)
Theorem X14_report_counts_more_than_sanitizer (threshold : Z) (fs : list MacroFinding)
    (wb wb' : Workbook) (items_removed : Z) :
  sanitize_excel_findings threshold fs wb 0 = Ok (wb', items_removed) ->
  items_removed
  = count_if (below_threshold threshold) fs - count_if (below_without_cell threshold) fs
  /\ 0 <= items_removed <= count_if (below_threshold threshold) fs.
Proof.
  intros H. apply sanitize_excel_findings_count in H.
  assert (count_if (to_redact threshold) fs
          = count_if (below_threshold threshold) fs
            - count_if (below_without_cell threshold) fs
          /\ 0 <= count_if (below_without_cell threshold) fs
          /\ 0 <= count_if (to_redact threshold) fs) as (E & H1 & H2).
  { clear. induction fs as [|f fs (IH & I1 & I2)]; [rewrite !count_if_nil; lia|].
    rewrite !count_if_cons.
    assert (to_redact threshold f
            = (score f <? threshold) && bool_decide (is_Some (cell_reference f))) as ->
      by reflexivity.
    assert (below_threshold threshold f = (score f <? threshold)) as -> by reflexivity.
    assert (below_without_cell threshold f
            = (score f <? threshold) && negb (bool_decide (is_Some (cell_reference f))))
      as -> by reflexivity.
    destruct (score f <? threshold); destruct (bool_decide _); simpl; lia. }
  lia.
Qed.

Lemma X14_witness :
  2 = count_if (below_threshold 5) (findings (fst scanned_book))
      - count_if (below_without_cell 5) (findings (fst scanned_book))
  /\ 0 <= 2 <= count_if (below_threshold 5) (findings (fst scanned_book)).
Proof.
  apply (X14_report_counts_more_than_sanitizer 5 (findings (fst scanned_book))
           [("TestSheet", worksheet grid_sheet)]
           (match sanitize_excel_findings 5 (findings (fst scanned_book))
                    [("TestSheet", worksheet grid_sheet)] 0 with
            | Ok (wb', _) => wb'
            | Raise _ => []
            end)).
  vm_compute. reflexivity.
Defined.

(** ** The sanitizers: failure *)





(** ** The composite-document sanitizer: what it changes *)

Lemma sanitize_targets_spec (col_letter : string) (targets : list (string * Z)) :
  forall cell n cell' n',
    sanitize_targets col_letter targets cell n = Ok (cell', n') ->
    (cell' = cell /\ n' = n)
    \/ (exists item_num,
          is_Some (formula cell) /\ cell' = redacted_cell cell item_num /\ n' = n + 1).
Proof.
  induction targets as [|[target_col item_num] rest IH]; intros cell n cell' n'; simpl.
  - intros [= <- <-]. left. auto.
  - destruct (String.eqb col_letter target_col); [|apply IH].
    unfold redact_cell. destruct (formula cell) as [f|] eqn:Ef; simpl; [|discriminate].
    intros H. apply IH in H as [[-> ->]|(item' & [x Hx] & _)]; [|discriminate Hx].
    right. exists item_num. split; [eauto|]. split; reflexivity.
Qed.

Lemma formula_count_cells_cons (cell : TableCell) (cells : list TableCell) :
  formula_count_cells (cell :: cells)
  = (if bool_decide (is_Some (formula cell)) then 1 else 0) + formula_count_cells cells.
Proof.
  unfold formula_count_cells. simpl. destruct (bool_decide _); simpl length; lia.
Qed.

Lemma sanitize_cells_spec (cts : gmap (string * Z) (list (string * Z)))
    (sheet_name : string) (row_num : Z) (cells : list TableCell) :
  forall col_num n cells' n',
    sanitize_cells cts sheet_name row_num col_num cells n = Ok (cells', n') ->
    Forall2 cell_kept_or_redacted cells cells'
    /\ n' = n + formula_count_cells cells - formula_count_cells cells'.
Proof.
  induction cells as [|cell rest IH]; intros col_num n cells' n'; simpl sanitize_cells.
  - intros [= <- <-]. split; [constructor|]. unfold formula_count_cells. simpl. lia.
  - destruct (match cts !! (sheet_name, row_num) with
              | Some targets =>
                  col_letter ← get_column_letter (col_num + 1);
                  sanitize_targets col_letter targets cell n
              | None => Ok (cell, n)
              end) as [[cell1 n1]|e] eqn:E; simpl; [|discriminate].
    destruct (sanitize_cells cts sheet_name row_num (sanitize_col_after col_num cell) rest n1)
      as [[rest' n2]|e] eqn:Er; simpl; [|discriminate].
    intros [= <- <-]. apply IH in Er as [Hrest Hn].
    assert ((cell1 = cell /\ n1 = n)
            \/ (exists item_num,
                  is_Some (formula cell) /\ cell1 = redacted_cell cell item_num
                  /\ n1 = n + 1)) as Hc.
    { destruct (cts !! (sheet_name, row_num)) as [targets|].
      - destruct (get_column_letter (col_num + 1)) as [cl|e]; simpl in E; [|discriminate].
        apply sanitize_targets_spec in E. exact E.
      - injection E as <- <-. left. auto. }
    rewrite !formula_count_cells_cons.
    destruct Hc as [[-> ->]|(item_num & Hsome & -> & ->)].
    + split; [constructor; [left; reflexivity | exact Hrest]|]. lia.
    + split; [constructor; [right; eauto | exact Hrest]|].
      rewrite (bool_decide_eq_true_2 _ Hsome). simpl formula.
      rewrite bool_decide_eq_false_2 by (intros [x Hx]; discriminate Hx). lia.
Qed.

Lemma sanitize_rows_spec (cts : gmap (string * Z) (list (string * Z)))
    (sheet_name : string) (rows : list (list TableCell)) :
  forall row_num n rows' n',
    sanitize_rows cts sheet_name row_num rows n = Ok (rows', n') ->
    Forall2 (Forall2 cell_kept_or_redacted) rows rows'
    /\ n' = n + formula_count_rows rows - formula_count_rows rows'.
Proof.
  induction rows as [|row rest IH]; intros row_num n rows' n'; simpl sanitize_rows.
  - intros [= <- <-]. split; [constructor|]. unfold formula_count_rows. simpl. lia.
  - destruct (sanitize_cells cts sheet_name (row_num + 1) 0 row n) as [[row1 n1]|e] eqn:E;
      simpl; [|discriminate].
    destruct (sanitize_rows cts sheet_name (row_num + 1) rest n1) as [[rest' n2]|e] eqn:Er;
      simpl; [|discriminate].
    intros [= <- <-]. apply IH in Er as [Hrest Hn].
    apply sanitize_cells_spec in E as [Hrow Hn1].
    split; [constructor; assumption|]. unfold formula_count_rows in *. simpl. lia.
Qed.

Lemma sanitize_tables_spec (cts : gmap (string * Z) (list (string * Z))) (ts : list Table) :
  forall n ts' n',
    sanitize_tables cts ts n = Ok (ts', n') ->
    Forall2 table_kept_or_redacted ts ts'
    /\ n' = n + formula_count ts - formula_count ts'.
Proof.
  induction ts as [|t rest IH]; intros n ts' n'; simpl sanitize_tables.
  - intros [= <- <-]. split; [constructor|]. unfold formula_count. simpl. lia.
  - destruct (sanitize_rows cts (sheet_name_of t) 0 (table_rows t) n) as [[rows1 n1]|e] eqn:E;
      simpl; [|discriminate].
    destruct (sanitize_tables cts rest n1) as [[rest' n2]|e] eqn:Er; simpl; [|discriminate].
    intros [= <- <-]. apply IH in Er as [Hrest Hn].
    apply sanitize_rows_spec in E as [Hrows Hn1].
    split; [constructor; [split; [reflexivity | exact Hrows] | exact Hrest]|].
    unfold formula_count in *. simpl. lia.
Qed.

(** X17. A composite-document sanitization that returns [True] keeps
    the structure of the input: the output document has the same tables,
    rows and cells in the same places and under the same names, one more
    automatic style, and every cell is either as in the input or redacted,
    which happens only to cells that carried a formula and leaves their
    repeat attribute in place.  The count it prints is the number of
    formula attributes that the output has fewer than the input. *)
Theorem X17_ods_sanitizer_keeps_structure (c : MacroChecker) (output_file : string)
    (w w' : World) (doc : OpenDocument) :
  content <$> files w !! input_file c = Some (OdsContainer doc) ->
  _create_sanitized_ods c output_file w = (true, w') ->
  exists doc',
    content <$> files w' !! output_file = Some (OdsContainer doc')
    /\ automaticstyles doc' = (automaticstyles doc ++ ["YellowBackground"])%list
    /\ Forall2 table_kept_or_redacted (tables doc) (tables doc')
    /\ stdout w'
       = (stdout w
          ++ [Line (Py.nl +:+ "Sanitized copy created: " +:+ output_file);
              Line ("Items removed/highlighted: "
                    +:+ Py.str (formula_count (tables doc) - formula_count (tables doc')))])%list.
Proof.
  intros Hdoc. unfold _create_sanitized_ods, copy2.
  destruct (negb (HAS_ODFPY w)); [discriminate|].
  destruct (files w !! input_file c) as [f|] eqn:Ef; [|discriminate].
  destruct (String.eqb (input_file c) output_file); [discriminate|].
  unfold write_file at 1. destruct (writable w output_file) eqn:Hwr; [|discriminate].
  set (w1 := with_files w _).
  unfold load_odf.
  assert (content <$> files w1 !! output_file = Some (OdsContainer doc)) as ->.
  { unfold w1. simpl. rewrite lookup_insert_eq. simpl in Hdoc. exact Hdoc. }
  set (l := fresh (dom (documents w1))).
  cbv iota beta.
  replace (default {| automaticstyles := []; tables := [] |}
             (documents (with_documents w1 (<[l:=doc]> (documents w1))) !! l))
    with doc by (simpl; rewrite lookup_insert_eq; reflexivity).
  destruct (sanitize_tables _ (tables doc) 0) as [[tables' n]|e] eqn:Es; [|discriminate].
  apply sanitize_tables_spec in Es as [Hrel Hn].
  unfold write_file. simpl writable. rewrite Hwr.
  intros [= <-].
  exists {| automaticstyles := (automaticstyles doc ++ ["YellowBackground"])%list;
            tables := tables' |}.
  split; [simpl; rewrite lookup_insert_eq; reflexivity|].
  split; [reflexivity|]. split; [exact Hrel|].
  simpl. rewrite Hn, <- app_assoc. simpl.
  replace (0 + formula_count (tables doc) - formula_count tables')
    with (formula_count (tables doc) - formula_count tables') by lia.
  reflexivity.
Qed.

Lemma X17_witness :
  exists doc',
    content <$> files (snd (_create_sanitized_ods (fst scanned_plain) "clean.ods"
                              (snd scanned_plain))) !! "clean.ods"
    = Some (OdsContainer doc')
    /\ automaticstyles doc' = ["ce1"; "YellowBackground"]
    /\ Forall2 table_kept_or_redacted (tables plain_document) (tables doc')
    /\ stdout (snd (_create_sanitized_ods (fst scanned_plain) "clean.ods" (snd scanned_plain)))
       = (stdout (snd scanned_plain)
          ++ [Line (Py.nl +:+ "Sanitized copy created: " +:+ "clean.ods");
              Line ("Items removed/highlighted: "
                    +:+ Py.str (formula_count (tables plain_document)
                                - formula_count (tables doc')))])%list.
Proof.
  apply (X17_ods_sanitizer_keeps_structure (fst scanned_plain) "clean.ods"
           (snd scanned_plain)
           (snd (_create_sanitized_ods (fst scanned_plain) "clean.ods" (snd scanned_plain)))
           plain_document).
  - vm_compute. reflexivity.
  - vm_compute. reflexivity.
Defined.

Lemma fold_add_target (threshold : Z) (sheet_name : string) (row : Z)
    (fs : list MacroFinding) :
  forall m : gmap (string * Z) (list (string * Z)),
    fold_left (add_target threshold) fs m !! (sheet_name, row)
    = match omap (target_at threshold sheet_name row) fs with
      | [] => m !! (sheet_name, row)
      | new => Some (default [] (m !! (sheet_name, row)) ++ new)%list
      end.
Proof.
  induction fs as [|f fs IH]; intros m; simpl fold_left; [reflexivity|].
  rewrite IH.
  change (omap (target_at threshold sheet_name row) (f :: fs))
    with (match target_at threshold sheet_name row f with
          | Some y => y :: omap (target_at threshold sheet_name row) fs
          | None => omap (target_at threshold sheet_name row) fs
          end).
  set (new := omap (target_at threshold sheet_name row) fs).
  unfold add_target, target_at.
  destruct (cell_reference f) as [[[s cl] r]|]; [|reflexivity].
  destruct (score f <? threshold); simpl; [|reflexivity].
  destruct (decide ((s, r) = (sheet_name, row))) as [E|E].
  - rewrite (bool_decide_eq_true_2 _ E). injection E as -> ->.
    rewrite lookup_insert_eq. simpl.
    destruct new as [|t new]; [reflexivity|].
    rewrite <- app_assoc. reflexivity.
  - rewrite (bool_decide_eq_false_2 _ E), lookup_insert_ne by exact E. reflexivity.
Qed.

(** X18. The dictionary that the composite-document sanitizer builds
    maps a sheet name and row to the column letters and item numbers of
    the findings to redact there, in the order of the findings, and has no
    entry for a row without such a finding. *)
Theorem X18_cells_to_sanitize_lookup (threshold : Z) (fs : list MacroFinding)
    (sheet_name : string) (row : Z) :
  build_cells_to_sanitize threshold fs !! (sheet_name, row)
  = match omap (target_at threshold sheet_name row) fs with
    | [] => None
    | targets => Some targets
    end.
Proof.
  unfold build_cells_to_sanitize. rewrite fold_add_target, lookup_empty.
  destruct (omap _ fs); reflexivity.
Qed.

(** ** The classifier adapter: replies with and without the markers *)

Lemma append_cons (c : ascii) (a b : string) : String c a +:+ b = String c (a +:+ b).
Proof. reflexivity. Qed.

Lemma append_nil (b : string) : EmptyString +:+ b = b.
Proof. reflexivity. Qed.

Lemma append_assoc_string (a b c : string) : (a +:+ b) +:+ c = a +:+ (b +:+ c).
Proof.
  induction a as [|x a IH]; [reflexivity|]. rewrite !append_cons. f_equal. exact IH.
Qed.

Lemma prefix_append (p s rest : string) :
  String.prefix p s = true -> String.prefix p (s +:+ rest) = true.
Proof.
  revert s. induction p as [|c p IH]; intros s; [destruct (s +:+ rest); reflexivity|].
  destruct s as [|d s]; [discriminate|]. rewrite append_cons. simpl.
  destruct (ascii_dec c d); [apply IH | discriminate].
Qed.

(** A marker at the start of a piece of a text occurs in the text. *)
Lemma contains_inside (p before s after : string) :
  String.prefix p s = true -> Py.contains p (before +:+ s +:+ after) = true.
Proof.
  intros H. induction before as [|c before IH].
  - rewrite append_nil. pose proof (prefix_append p s after H) as Hp.
    revert Hp. generalize (s +:+ after). intros x Hp.
    destruct x; simpl in *; rewrite Hp; reflexivity.
  - rewrite append_cons. simpl. rewrite IH. apply orb_true_r.
Qed.

Lemma prefix_newline (c : ascii) (s : string) :
  String.prefix Py.nl (String c s) = Ascii.eqb c (ascii_of_nat 10).
Proof.
  change (String.prefix Py.nl (String c s))
    with (match ascii_dec (ascii_of_nat 10) c with
          | left _ => String.prefix EmptyString s
          | right _ => false
          end).
  destruct (ascii_dec (ascii_of_nat 10) c) as [<-|Hne].
  - rewrite Ascii.eqb_refl. destruct s; reflexivity.
  - symmetry. apply Ascii.eqb_neq. congruence.
Qed.

Lemma split_newline_step (c : ascii) (s : string) :
  Py.split_from Py.nl 0 (String c s)
  = if Ascii.eqb c (ascii_of_nat 10)
    then EmptyString :: Py.split_from Py.nl 0 s
    else Py.cons_head c (Py.split_from Py.nl 0 s).
Proof.
  change (Py.split_from Py.nl 0 (String c s))
    with (if String.prefix Py.nl (String c s)
          then EmptyString :: Py.split_from Py.nl 0 s
          else Py.cons_head c (Py.split_from Py.nl 0 s)).
  rewrite prefix_newline. reflexivity.
Qed.

Lemma split_newline_pieces (s : string) :
  (exists h t rest, Py.split_from Py.nl 0 s = h :: t /\ s = h +:+ rest)
  /\ forall line, In line (Py.split_from Py.nl 0 s) ->
                  exists before after, s = before +:+ line +:+ after.
Proof.
  induction s as [|c s [(h & t & rest & Hs & Hh) IH]].
  - split; [exists EmptyString, [], EmptyString; auto|].
    intros line [<-|[]]. exists EmptyString, EmptyString. reflexivity.
  - rewrite split_newline_step. destruct (Ascii.eqb c (ascii_of_nat 10)).
    + split; [exists EmptyString, (Py.split_from Py.nl 0 s), (String c s); auto|].
      intros line [<-|Hin]; [exists EmptyString, (String c s); reflexivity|].
      destruct (IH line Hin) as (before & after & Hb).
      exists (String c before), after. rewrite append_cons, <- Hb. reflexivity.
    + rewrite Hs. simpl. split.
      * exists (String c h), t, rest. rewrite append_cons, <- Hh. auto.
      * intros line [<-|Hin].
        -- exists EmptyString, rest. rewrite append_nil, append_cons, <- Hh. reflexivity.
        -- destruct (IH line) as (before & after & Hb); [rewrite Hs; right; exact Hin|].
           exists (String c before), after. rewrite append_cons, <- Hb. reflexivity.
Qed.

Lemma lstrip_suffix (s : string) : exists before, s = before +:+ Py.lstrip s.
Proof.
  induction s as [|c s [before IH]]; simpl; [exists EmptyString; reflexivity|].
  destruct (Py.isspace c).
  - exists (String c before). rewrite append_cons, <- IH. reflexivity.
  - exists EmptyString. reflexivity.
Qed.

Lemma rstrip_prefix (s : string) : exists after, s = Py.rstrip s +:+ after.
Proof.
  induction s as [|c s [after IH]]; simpl; [exists EmptyString; reflexivity|].
  destruct (Py.rstrip s) as [|d r] eqn:E.
  - destruct (Py.isspace c).
    + exists (String c s). reflexivity.
    + exists s. reflexivity.
  - exists after. rewrite append_cons, <- IH. reflexivity.
Qed.

(** Every line that the parser walks is a piece of the reply text. *)
Lemma reply_line_inside (text line : string) :
  In line (reply_lines text) -> exists before after, text = before +:+ line +:+ after.
Proof.
  unfold reply_lines, Py.split. intros H.
  apply (proj2 (split_newline_pieces _)) in H as (b1 & a1 & Hs).
  destruct (lstrip_suffix text) as [b0 Hl]. destruct (rstrip_prefix (Py.lstrip text)) as [a0 Hr].
  exists (b0 +:+ b1), (a1 +:+ a0).
  rewrite Hl at 1. rewrite Hr at 1. unfold Py.strip in Hs. rewrite Hs.
  rewrite !append_assoc_string. reflexivity.
Qed.

Lemma no_marker_no_line (marker text : string) :
  Py.contains marker text = false ->
  Forall (fun line => Py.startswith line marker = false) (reply_lines text).
Proof.
  intros H. apply Forall_forall. intros line Hin.
  apply list_elem_of_In, reply_line_inside in Hin as (before & after & ->).
  destruct (Py.startswith line marker) eqn:E; [|reflexivity].
  unfold Py.startswith in E. rewrite (contains_inside _ before line after E) in H.
  discriminate H.
Qed.

Lemma parse_line_keeps_all (st : Z * string) (line : string) :
  Py.startswith line "SCORE:" = false -> Py.startswith line "ANALYSIS:" = false ->
  parse_line st line = st.
Proof. unfold parse_line. intros -> ->. reflexivity. Qed.

(** X19. A reply that completes and contains neither marker leaves the
    defaults: the score is the midpoint 5 and the rationale is
    ["Unable to analyze"], wherever in the text the markers are looked
    for. *)
Theorem X19_reply_without_markers (query : string -> query_run)
    (code location text : string) :
  query (build_prompt code location) = one_reply text ->
  Py.contains "SCORE:" text = false ->
  Py.contains "ANALYSIS:" text = false ->
  analyze_code_with_claude query code location = (5, "Unable to analyze").
Proof.
  intros Hq Hs Ha. unfold analyze_code_with_claude. rewrite Hq. simpl.
  unfold parse_text. rewrite Ha, andb_false_r.
  pose proof (no_marker_no_line _ _ Hs) as Ls. pose proof (no_marker_no_line _ _ Ha) as La.
  fold (reply_lines text).
  induction (reply_lines text) as [|line lines IH]; [reflexivity|].
  apply Forall_cons in Ls as [Hs1 Ls]. apply Forall_cons in La as [Ha1 La].
  simpl. rewrite (parse_line_keeps_all _ _ Hs1 Ha1). apply IH; assumption.
Qed.

Lemma X19_witness :
  analyze_code_with_claude (fun _ => one_reply "I cannot judge this.
Score: eight") "=A1" "Sheet1!A1"
  = (5, "Unable to analyze").
Proof. apply X19_reply_without_markers with (text := "I cannot judge this.
Score: eight"); reflexivity. Defined.
